(** * Neutron MCP server: a shallow embedding of the authenticated request
      pipeline ([NeutronClient]) and of the tool-call handler (index.ts).

    JavaScript values are an inductive type, numbers are IEEE-754 binary64
    values ([spec_float], precision 53, emax 1024), objects are association
    lists in property order, and the asynchronous client code is written in
    a state-and-exception monad over the client fields, the clock and the
    network. *)

From Stdlib Require Import ZArith List String Ascii Bool Lia.
From Stdlib Require Import DecimalString.
From Stdlib Require Import Floats.SpecFloat.
Import ListNotations.
Local Open Scope string_scope.
Local Open Scope Z_scope.

Set Warnings "-register-all".

(* ===================================================================== *)
(** ** JavaScript numbers *)
(* ===================================================================== *)

Module Num.

Definition prec : Z := 53.
Definition emax : Z := 1024.

Definition number := spec_float.

Definition zero : number := S754_zero false.
Definition nan : number := S754_nan.

(** An integer literal, rounded to the nearest double (exact below 2^53). *)
Definition of_Z (z : Z) : number := binary_normalize prec emax z 0 false.

Definition div (x y : number) : number := SFdiv prec emax x y.
Definition mul (x y : number) : number := SFmul prec emax x y.
Definition add (x y : number) : number := SFadd prec emax x y.
Definition ltb (x y : number) : bool := SFltb x y.

(** The literal [100_000_000]. *)
Definition hundred_million : number := of_Z 100000000.



(** [Math.round]: the integer closest to [x], ties towards +infinity;
    integral values, infinities and NaN are returned as they are, and a
    result of zero keeps the sign of [x]. *)
Definition round (x : number) : number :=
  match x with
  | S754_finite s m e =>
      if 0 <=? e then x
      else
        let k := Z.opp e in
        let n := Z.div (2 * cond_Zopp s (Zpos m) + 2 ^ k) (2 ^ (k + 1)) in
        binary_normalize prec emax n 0 s
  | _ => x
  end.

Definition is_zero_or_nan (x : number) : bool :=
  match x with
  | S754_zero _ | S754_nan => true
  | _ => false
  end.

End Num.

Definition number : Type := Num.number.

(* ===================================================================== *)
(** ** JavaScript values *)
(* ===================================================================== *)

(** Objects are association lists in property order; a key occurs at most
    once in the objects this program builds. *)
Inductive value : Type :=
| VUndefined
| VNull
| VBool (b : bool)
| VNum (x : number)
| VStr (s : string)
| VArr (xs : list value)
| VObj (props : list (string * value)).

Definition object : Type := list (string * value).

(** Platform functions of the JavaScript runtime that the program calls and
    does not define. *)
Record Runtime : Type := {
  (** [Number.prototype.toString] *)
  number_to_string : number -> string;
  (** [StringToNumber], the numeric reading of a string *)
  string_to_number : string -> number;
  (** the text [JSON.stringify] writes for a JSON document, at an indent *)
  json_text : nat -> value -> string;
  (** [crypto.createHmac("sha256", key).update(msg).digest("hex")] *)
  hmac_sha256_hex : string -> string -> string;
  (** [new Date(v).getTime()] *)
  date_get_time : value -> number;
  (** [URLSearchParams.prototype.toString] of the appended pairs *)
  url_search_params_to_string : list (string * string) -> string;
  (** [encodeURIComponent] *)
  encode_uri_component : string -> string
}.

Module Js.

(** Truthiness (ToBoolean). *)
Definition truthy (v : value) : bool :=
  match v with
  | VUndefined | VNull => false
  | VBool b => b
  | VNum x => negb (Num.is_zero_or_nan x)
  | VStr s => negb (String.eqb s EmptyString)
  | VArr _ | VObj _ => true
  end.

(** [a || b] *)
Definition or (a b : value) : value := if truthy a then a else b.

(** [v] is null or undefined. *)
Definition nullish (v : value) : bool :=
  match v with VUndefined | VNull => true | _ => false end.

(** [v !== undefined] *)
Definition defined (v : value) : bool :=
  match v with VUndefined => false | _ => true end.

Fixpoint lookup (k : string) (o : object) : option value :=
  match o with
  | [] => None
  | (k', v) :: rest => if String.eqb k k' then Some v else lookup k rest
  end.

(** [o[k] = v] on an object: replaces in place or appends. *)
Fixpoint set (k : string) (v : value) (o : object) : object :=
  match o with
  | [] => [(k, v)]
  | (k', v') :: rest =>
      if String.eqb k k' then (k, v) :: rest else (k', v') :: set k v rest
  end.

(** [{...o, ...extra}]: the properties of [extra] are assigned in order. *)
Definition spread (o extra : object) : object :=
  fold_left (fun acc kv => set (fst kv) (snd kv) acc) extra o.

(** The object without the key [k] (rest destructuring). *)
Fixpoint remove (k : string) (o : object) : object :=
  match o with
  | [] => []
  | (k', v') :: rest =>
      if String.eqb k k' then remove k rest else (k', v') :: remove k rest
  end.

(** [v.k]: [None] stands for the TypeError raised on null and undefined;
    a primitive or an array has none of the properties this program
    reads. *)
Definition get (v : value) (k : string) : option value :=
  match v with
  | VUndefined | VNull => None
  | VObj o => Some (match lookup k o with Some x => x | None => VUndefined end)
  | _ => Some VUndefined
  end.

(** The value found by following the keys [ks] through nested objects:
    [None] when a key on the way is missing or leads through a value
    that is not an object. *)
Fixpoint path (ks : list string) (o : object) : option value :=
  match ks with
  | [] => Some (VObj o)
  | [k] => lookup k o
  | k :: rest =>
      match lookup k o with
      | Some (VObj o') => path rest o'
      | _ => None
      end
  end.

(** [v?.k] *)
Definition get_opt (v : value) (k : string) : value :=
  match get v k with Some x => x | None => VUndefined end.

Section WithRuntime.
Variable rt : Runtime.

Fixpoint join (sep : string) (parts : list string) : string :=
  match parts with
  | [] => EmptyString
  | [p] => p
  | p :: rest => p ++ sep ++ join sep rest
  end.

(** [String(v)], also the conversion inside template literals. *)
Fixpoint to_string (v : value) : string :=
  match v with
  | VUndefined => "undefined"
  | VNull => "null"
  | VBool true => "true"
  | VBool false => "false"
  | VNum x => number_to_string rt x
  | VStr s => s
  | VArr xs =>
      join ","
        (map (fun x => match x with
                       | VUndefined | VNull => EmptyString
                       | _ => to_string x
                       end) xs)
  | VObj _ => "[object Object]"
  end.

(** ToNumber. *)
Definition to_number (v : value) : number :=
  match v with
  | VUndefined => Num.nan
  | VNull => Num.zero
  | VBool true => Num.of_Z 1
  | VBool false => Num.zero
  | VNum x => x
  | VStr s => string_to_number rt s
  | VArr _ | VObj _ => string_to_number rt (to_string v)
  end.

(** [a / b] and [a * b] *)
Definition div (a b : value) : value := VNum (Num.div (to_number a) (to_number b)).
Definition mul (a b : value) : value := VNum (Num.mul (to_number a) (to_number b)).

(** [Math.round(v)] *)
Definition math_round (v : value) : value := VNum (Num.round (to_number v)).

End WithRuntime.

(** The JSON document [JSON.stringify] serializes for a value: [None]
    where it yields [undefined]. Properties whose value is undefined are
    left out, undefined array elements and non-finite numbers become
    null, and negative zero is written as zero. *)
Fixpoint json_doc (v : value) : option value :=
  match v with
  | VUndefined => None
  | VNull => Some VNull
  | VBool b => Some (VBool b)
  | VNum x =>
      Some (match x with
            | S754_zero _ => VNum Num.zero
            | S754_finite _ _ _ => VNum x
            | _ => VNull
            end)
  | VStr s => Some (VStr s)
  | VArr xs =>
      Some (VArr (map (fun x => match json_doc x with
                                | Some d => d
                                | None => VNull
                                end) xs))
  | VObj o =>
      Some (VObj
        ((fix props (o : object) : object :=
            match o with
            | [] => []
            | (k, x) :: rest =>
                match json_doc x with
                | Some d => (k, d) :: props rest
                | None => props rest
                end
            end) o))
  end.

(** [JSON.stringify(v, null, indent)] *)
Definition json_stringify (rt : Runtime) (indent : nat) (v : value) : value :=
  match json_doc v with
  | Some d => VStr (json_text rt indent d)
  | None => VUndefined
  end.

End Js.

(* ===================================================================== *)
(** ** Errors, HTTP and the world outside the process *)
(* ===================================================================== *)

(** What a [throw] or a rejected promise carries. *)
Inductive exn : Type :=
| JsError (message : string)   (** an [Error] instance (Error, TypeError, SyntaxError) *)
| JsThrown (v : value).        (** any other thrown value *)

Inductive outcome (A : Type) : Type :=
| Ok (a : A)
| Throw (e : exn).
Arguments Ok {A} a.
Arguments Throw {A} e.

Record http_request : Type := {
  req_method : string;
  req_url : string;
  req_headers : list (string * string);
  req_body : value                       (** a string, or undefined *)
}.

Record http_response : Type := {
  status : N;
  statusText : string;
  (** what [response.json()] settles to: a parsed value, or the message of
      the SyntaxError it rejects with *)
  json_body : string + value
}.

(** [response.ok] *)
Definition ok (r : http_response) : bool :=
  ((200 <=? status r) && (status r <=? 299))%N.

(** The template-literal rendering of [response.status]. *)
Definition status_string (r : http_response) : string :=
  NilZero.string_of_uint (N.to_uint (status r)).

(** What the network does with one [fetch]: a response, or a rejection. *)
Inductive net_event : Type :=
| NetReply (r : http_response)
| NetFail (message : string).

(** The clock reading, the fate of the coming fetches (each with the clock
    reading once it has settled) and the requests sent so far, oldest
    first. *)
Record world : Type := {
  now : number;
  inbox : list (net_event * number);
  sent : list http_request
}.

(* ===================================================================== *)
(** ** neutron-client.ts *)
(* ===================================================================== *)

Record NeutronConfig : Type := {
  apiUrl : string;
  apiKey : string;
  apiSecret : string
}.

Record NeutronClient : Type := {
  config : NeutronConfig;
  accountId : value;
  accessToken : value;
  tokenExpiry : number;
  cachedAuthResponse : value
}.

(** [new NeutronClient(config)] *)
Definition new_client (cfg : NeutronConfig) : NeutronClient :=
  {| config := cfg; accountId := VNull; accessToken := VNull;
     tokenExpiry := Num.zero; cachedAuthResponse := VNull |}.

(** Client code runs over the client's fields and the world, and either
    returns or throws. *)
Definition M (A : Type) : Type :=
  NeutronClient -> world -> outcome A * NeutronClient * world.

Definition ret {A} (a : A) : M A := fun c w => (Ok a, c, w).

Definition throw {A} (e : exn) : M A := fun c w => (Throw e, c, w).

Definition bind {A B} (m : M A) (k : A -> M B) : M B :=
  fun c w =>
    match m c w with
    | (Ok a, c', w') => k a c' w'
    | (Throw e, c', w') => (Throw e, c', w')
    end.

Notation "x <- m ;; k" := (bind m (fun x => k))
  (at level 61, m at next level, right associativity).
Notation "m ;;; k" := (bind m (fun _ => k))
  (at level 61, right associativity).

Definition this : M NeutronClient := fun c w => (Ok c, c, w).

Definition assign (f : NeutronClient -> NeutronClient) : M unit :=
  fun c w => (Ok tt, f c, w).

(** [Date.now()] *)
Definition date_now : M number := fun c w => (Ok (now w), c, w).

(** [await fetch(url, init)] *)
Definition fetch (rq : http_request) : M http_response :=
  fun c w =>
    match inbox w with
    | [] =>
        (Throw (JsError "fetch failed"), c,
         {| now := now w; inbox := []; sent := sent w ++ [rq] |})
    | (NetFail msg, t) :: rest =>
        (Throw (JsError msg), c,
         {| now := t; inbox := rest; sent := sent w ++ [rq] |})
    | (NetReply r, t) :: rest =>
        (Ok r, c, {| now := t; inbox := rest; sent := sent w ++ [rq] |})
    end.

(** [await response.json()] *)
Definition json (r : http_response) : M value :=
  match json_body r with
  | inr v => ret v
  | inl msg => throw (JsError msg)
  end.

(** [await response.json().catch(() => ({}))] *)
Definition json_or_empty (r : http_response) : value :=
  match json_body r with
  | inr v => v
  | inl _ => VObj []
  end.

(** [v.k], with the TypeError of a null or undefined [v]. *)
Definition member {rt : Runtime} (v : value) (k : string) : M value :=
  match Js.get v k with
  | Some x => ret x
  | None =>
      throw (JsError ("Cannot read properties of " ++ Js.to_string rt v
                      ++ " (reading '" ++ k ++ "')"))
  end.

Section Client.
Variable rt : Runtime.

(** [a || b] where evaluating [a] or [b] may throw. *)
Definition or_else (a b : M value) : M value :=
  x <- a ;; if Js.truthy x then ret x else b.

Definition generateSignature (payload : string) : M string :=
  c <- this ;;
  let stringToSign := apiKey (config c) ++ "&payload=" ++ payload in
  ret (hmac_sha256_hex rt (apiSecret (config c)) stringToSign).

Definition ensureAuthenticated : M value :=
  c <- this ;;
  t <- date_now ;;
  if Js.truthy (cachedAuthResponse c) && Js.truthy (accessToken c)
     && Js.truthy (accountId c) && Num.ltb t (tokenExpiry c)
  then ret (cachedAuthResponse c)
  else
    let payload := Js.json_stringify rt 0 (VObj [("test", VStr "auth")]) in
    signature <- generateSignature (Js.to_string rt payload) ;;
    response <- fetch
      {| req_method := "POST";
         req_url := apiUrl (config c) ++ "/api/v2/authentication/token-signature";
         req_headers := [("Content-Type", "application/json");
                         ("X-Api-Key", apiKey (config c));
                         ("X-Api-Signature", signature)];
         req_body := payload |} ;;
    if negb (ok response) then
      let error := json_or_empty response in
      detail <- or_else (member (rt:=rt) error "message")
                  (or_else (member (rt:=rt) error "error")
                     (ret (VStr (statusText response)))) ;;
      throw (JsError ("Authentication failed: " ++ status_string response
                      ++ " - " ++ Js.to_string rt detail))
    else
      authResult <- json response ;;
      acct <- member (rt:=rt) authResult "accountId" ;;
      assign (fun c => {| config := config c; accountId := acct;
                          accessToken := accessToken c;
                          tokenExpiry := tokenExpiry c;
                          cachedAuthResponse := cachedAuthResponse c |}) ;;;
      tok <- member (rt:=rt) authResult "accessToken" ;;
      assign (fun c => {| config := config c; accountId := accountId c;
                          accessToken := tok;
                          tokenExpiry := tokenExpiry c;
                          cachedAuthResponse := cachedAuthResponse c |}) ;;;
      assign (fun c => {| config := config c; accountId := accountId c;
                          accessToken := accessToken c;
                          tokenExpiry := tokenExpiry c;
                          cachedAuthResponse := authResult |}) ;;;
      expiredAt <- member (rt:=rt) authResult "expiredAt" ;;
      t' <- date_now ;;
      assign (fun c => {| config := config c; accountId := accountId c;
                          accessToken := accessToken c;
                          tokenExpiry :=
                            if Js.truthy expiredAt
                            then date_get_time rt expiredAt
                            else Num.add t' (Num.of_Z 3600000);
                          cachedAuthResponse := cachedAuthResponse c |}) ;;;
      ret authResult.

Definition authenticate : M value :=
  assign (fun c => {| config := config c; accountId := VNull;
                      accessToken := VNull; tokenExpiry := Num.zero;
                      cachedAuthResponse := VNull |}) ;;;
  ensureAuthenticated.

Definition request (method path : string) (body : value) : M value :=
  ensureAuthenticated ;;;
  c <- this ;;
  let url := apiUrl (config c) ++ path in
  let headers :=
    ("Authorization", "Bearer " ++ Js.to_string rt (accessToken c))
    :: (if Js.truthy body then [("Content-Type", "application/json")] else []) in
  response <- fetch
    {| req_method := method; req_url := url; req_headers := headers;
       req_body := if Js.truthy body then Js.json_stringify rt 0 body
                   else VUndefined |} ;;
  if negb (ok response) then
    let error := json_or_empty response in
    detail <- or_else (member (rt:=rt) error "error")
                (or_else (member (rt:=rt) error "message")
                   (ret (VStr (statusText response)))) ;;
    throw (JsError ("API Error " ++ status_string response ++ ": "
                    ++ Js.to_string rt detail))
  else json response.

(** *** Account *)

Definition getAccount : M value :=
  ensureAuthenticated ;;;
  c <- this ;;
  request "GET" ("/api/v2/account/" ++ Js.to_string rt (accountId c)) VUndefined.

Definition getWallets : M value :=
  ensureAuthenticated ;;;
  c <- this ;;
  request "GET" ("/api/v2/account/" ++ Js.to_string rt (accountId c) ++ "/wallet/")
    VUndefined.

Definition getWallet (walletId : value) : M value :=
  ensureAuthenticated ;;;
  c <- this ;;
  request "GET" ("/api/v2/account/" ++ Js.to_string rt (accountId c)
                 ++ "/wallet/" ++ Js.to_string rt walletId) VUndefined.

(** *** Transactions *)

Definition createTransaction (body : value) : M value :=
  request "POST" "/api/v2/transaction" body.

Definition confirmTransaction (transactionId : value) : M value :=
  request "PUT" ("/api/v2/transaction/" ++ Js.to_string rt transactionId ++ "/confirm")
    VUndefined.

Definition getTransaction (transactionId : value) : M value :=
  request "GET" ("/api/v2/transaction/" ++ Js.to_string rt transactionId) VUndefined.

Definition listTransactions (params : object) : M value :=
  let qs :=
    flat_map (fun kv => match snd kv with
                        | VUndefined | VNull => []
                        | v => [(fst kv, Js.to_string rt v)]
                        end) params in
  let query := url_search_params_to_string rt qs in
  request "GET" ("/api/v2/transaction"
                 ++ (if Js.truthy (VStr query) then "?" ++ query else EmptyString))
    VUndefined.

(** *** Lightning *)

Definition encodeURIComponent (v : value) : string :=
  encode_uri_component rt (Js.to_string rt v).

Definition decodeInvoice (invoice : value) : M value :=
  request "GET" ("/api/v2/lightning/invoice?invoice=" ++ encodeURIComponent invoice)
    VUndefined.

Definition resolveLightningAddress (address amountMsat : value) : M value :=
  let path := "/api/v2/lightning/resolve-ln-address?lnAddress="
              ++ encodeURIComponent address in
  let path := if Js.defined amountMsat
              then path ++ "&amount=" ++ Js.to_string rt amountMsat
              else path in
  request "GET" path VUndefined.

Definition resolveLnurl (lnurl : value) : M value :=
  request "GET" ("/api/v2/lightning/resolve-lnurl?lnurl=" ++ encodeURIComponent lnurl)
    VUndefined.

(** *** Receive addresses *)

Definition getBtcReceiveAddress : M value :=
  request "GET" "/api/v2/account/onchain-address" VUndefined.

Definition getUsdtReceiveAddress (chainId : value) : M value :=
  let chainId := if Js.defined chainId then chainId else VStr "TRON" in
  request "GET" ("/api/v2/account/stablecoin-onchain-address?walletCcy=USDT&chainId="
                 ++ Js.to_string rt chainId) VUndefined.

(** *** Webhooks *)

Definition createWebhook (body : value) : M value :=
  request "POST" "/api/v2/webhook" body.

Definition listWebhooks : M value :=
  request "GET" "/api/v2/webhook" VUndefined.

Definition updateWebhook (webhookId body : value) : M value :=
  request "PUT" ("/api/v2/webhook/" ++ Js.to_string rt webhookId) body.

Definition deleteWebhook (webhookId : value) : M unit :=
  request "DELETE" ("/api/v2/webhook/" ++ Js.to_string rt webhookId) VUndefined ;;;
  ret tt.

(** *** Reference data *)

Definition getRate : M value :=
  request "GET" "/api/v2/rate" VUndefined.

Definition getFiatInstitutions (countryCode : value) : M value :=
  request "GET" ("/api/v2/reference/fiat-institution/by-country/"
                 ++ Js.to_string rt countryCode) VUndefined.

End Client.

(* ===================================================================== *)
(** ** index.ts *)
(* ===================================================================== *)

(** The three variables read from [process.env]. *)
Record environment : Type := {
  NEUTRON_API_URL : option string;
  NEUTRON_API_KEY : option string;
  NEUTRON_API_SECRET : option string
}.

(** The process: its environment, the module-level [_client] singleton and
    the world. *)
Record process : Type := {
  env : environment;
  _client : option NeutronClient;
  outside : world
}.

Definition getClient (p : process) : outcome NeutronClient * process :=
  match _client p with
  | Some c => (Ok c, p)
  | None =>
      let url := match NEUTRON_API_URL (env p) with
                 | Some u => if Js.truthy (VStr u) then u else "https://api.neutron.me"
                 | None => "https://api.neutron.me"
                 end in
      match NEUTRON_API_KEY (env p), NEUTRON_API_SECRET (env p) with
      | Some key, Some secret =>
          if negb (Js.truthy (VStr key)) || negb (Js.truthy (VStr secret))
          then (Throw (JsError
                  ("NEUTRON_API_KEY and NEUTRON_API_SECRET environment variables are required. "
                   ++ "Get your credentials at https://neutron.me")), p)
          else
            let c := new_client {| apiUrl := url; apiKey := key; apiSecret := secret |} in
            (Ok c, {| env := env p; _client := Some c; outside := outside p |})
      | _, _ =>
          (Throw (JsError
             ("NEUTRON_API_KEY and NEUTRON_API_SECRET environment variables are required. "
              ++ "Get your credentials at https://neutron.me")), p)
      end
  end.

(** The result of a tool call: the text of its one content item, and
    whether [isError] is set. *)
Record CallToolResult : Type := {
  content_text : value;
  isError : bool
}.

Section Handlers.
Variable rt : Runtime.

(** [args.k] on the argument object. *)
Definition arg (args : object) (k : string) : value :=
  match Js.lookup k args with Some v => v | None => VUndefined end.

(** case "neutron_create_lightning_invoice" *)

Definition lightning_btc_amount (amountSats amountBtc : value) : M value :=
  if Js.defined amountSats then
    ret (Js.div rt amountSats (VNum Num.hundred_million))
  else if Js.defined amountBtc then
    ret amountBtc
  else throw (JsError "Provide either amountSats or amountBtc").

Definition lightning_request (extRefId btcAmount : value) : value :=
  VObj [("extRefId", extRefId);
        ("sourceReq", VObj [("ccy", VStr "BTC");
                            ("method", VStr "lightning");
                            ("reqDetails", VObj [])]);
        ("destReq", VObj [("ccy", VStr "BTC");
                          ("method", VStr "neutronpay");
                          ("amtRequested", btcAmount);
                          ("reqDetails", VObj [])])].

Definition create_lightning_invoice (args : object) : M value :=
  let amountSats := arg args "amountSats" in
  let amountBtc := arg args "amountBtc" in
  let memo := arg args "memo" in
  let extRefId := arg args "extRefId" in
  btcAmount <- lightning_btc_amount amountSats amountBtc ;;
  txn <- createTransaction rt (lightning_request extRefId btcAmount) ;;
  txnId <- member (rt:=rt) txn "txnId" ;;
  confirmed <- confirmTransaction rt txnId ;;
  sourceReq <- member (rt:=rt) confirmed "sourceReq" ;;
  let payReq := Js.get_opt (Js.get_opt sourceReq "reqDetails") "paymentRequest" in
  let qrPage := Js.get_opt (Js.get_opt sourceReq "reqDetails") "invoicePageUrl" in
  ret (VObj [("success", VBool true);
             ("txnId", Js.get_opt confirmed "txnId");
             ("invoice", payReq);
             ("qrPageUrl", qrPage);
             ("amountBtc", btcAmount);
             ("amountSats",
              Js.math_round rt (Js.mul rt btcAmount (VNum Num.hundred_million)));
             ("memo", Js.or memo VNull);
             ("status", Js.get_opt confirmed "txnState");
             ("message",
              VStr "Lightning invoice created and confirmed. Share the invoice string or QR page URL to receive payment.")]).

(** case "neutron_create_transaction" *)

(** [if (v) o.k = v] *)
Definition copy_if_truthy (k : string) (v : value) (o : object) : object :=
  if Js.truthy v then Js.set k v o else o.

Definition build_destReqDetails (a : object) : object :=
  copy_if_truthy "institutionCode" (arg a "institutionCode")
    (copy_if_truthy "bankAcctNum" (arg a "bankAcctNum")
       (copy_if_truthy "address" (arg a "address")
          (copy_if_truthy "lnurl" (arg a "lnurl")
             (copy_if_truthy "paymentRequest" (arg a "paymentRequest") [])))).

Definition build_kyc (a : object) : value :=
  if Js.truthy (Js.or (arg a "recipientName") (arg a "countryCode")) then
    VObj [("type", Js.or (arg a "kycType") (VStr "individual"));
          ("details", VObj [("legalFullName", arg a "recipientName");
                            ("countryCode", arg a "countryCode")])]
  else VUndefined.

Definition build_sourceOfFunds (a : object) : value :=
  if Js.truthy (arg a "bankAcctNum") then
    VObj [("purpose", VNum (Num.of_Z 1));
          ("source", VNum (Num.of_Z 5));
          ("relationship", VNum (Num.of_Z 3))]
  else VUndefined.

Definition transaction_body (a : object) : object :=
  let destReqDetails := build_destReqDetails a in
  let kyc := build_kyc a in
  let sourceOfFunds := build_sourceOfFunds a in
  Js.spread
    [("extRefId", arg a "extRefId");
     ("sourceReq",
      VObj (Js.set "reqDetails" (VObj [])
              (Js.spread [("ccy", arg a "sourceCcy");
                          ("method", arg a "sourceMethod")]
                 (if Js.defined (arg a "sourceAmount")
                  then [("amtRequested", arg a "sourceAmount")] else []))));
     ("destReq",
      VObj (Js.spread
              (Js.set "reqDetails" (VObj destReqDetails)
                 (Js.spread [("ccy", arg a "destCcy");
                             ("method", arg a "destMethod")]
                    (if Js.defined (arg a "destAmount")
                     then [("amtRequested", arg a "destAmount")] else [])))
              (if Js.truthy kyc then [("kyc", kyc)] else [])))]
    (if Js.truthy sourceOfFunds then [("sourceOfFunds", sourceOfFunds)] else []).

Definition create_transaction (a : object) : M value :=
  createTransaction rt (VObj (transaction_body a)).

(** The [switch (name)] of the tool-call handler. *)
Definition dispatch (name : string) (args : object) : M value :=
  if String.eqb name "neutron_authenticate" then
    auth <- authenticate rt ;;
    acct <- member (rt:=rt) auth "accountId" ;;
    expiry <- member (rt:=rt) auth "expiredAt" ;;
    ret (VObj [("success", VBool true);
               ("accountId", acct);
               ("tokenExpiry", expiry);
               ("message",
                VStr "Authentication successful. Your API credentials are valid.")])
  else if String.eqb name "neutron_get_account" then getAccount rt
  else if String.eqb name "neutron_get_wallets" then getWallets rt
  else if String.eqb name "neutron_get_wallet" then getWallet rt (arg args "walletId")
  else if String.eqb name "neutron_create_lightning_invoice" then
    create_lightning_invoice args
  else if String.eqb name "neutron_create_transaction" then create_transaction args
  else if String.eqb name "neutron_confirm_transaction" then
    confirmTransaction rt (arg args "transactionId")
  else if String.eqb name "neutron_get_transaction" then
    getTransaction rt (arg args "transactionId")
  else if String.eqb name "neutron_list_transactions" then
    listTransactions rt
      [("status", arg args "status"); ("method", arg args "method");
       ("currency", arg args "currency"); ("fromDate", arg args "fromDate");
       ("toDate", arg args "toDate"); ("limit", arg args "limit");
       ("offset", arg args "offset")]
  else if String.eqb name "neutron_decode_invoice" then
    decodeInvoice rt (arg args "invoice")
  else if String.eqb name "neutron_resolve_lightning_address" then
    resolveLightningAddress rt (arg args "address") (arg args "amountMsat")
  else if String.eqb name "neutron_resolve_lnurl" then
    resolveLnurl rt (arg args "lnurl")
  else if String.eqb name "neutron_get_btc_address" then getBtcReceiveAddress rt
  else if String.eqb name "neutron_get_usdt_address" then
    getUsdtReceiveAddress rt (Js.or (arg args "chain") (VStr "TRON"))
  else if String.eqb name "neutron_create_webhook" then
    createWebhook rt (VObj [("callback", arg args "callback");
                            ("secret", arg args "secret")])
  else if String.eqb name "neutron_list_webhooks" then listWebhooks rt
  else if String.eqb name "neutron_update_webhook" then
    updateWebhook rt (arg args "webhookId") (VObj (Js.remove "webhookId" args))
  else if String.eqb name "neutron_delete_webhook" then
    deleteWebhook rt (arg args "webhookId") ;;;
    ret (VObj [("success", VBool true);
               ("message",
                VStr ("Webhook " ++ Js.to_string rt (arg args "webhookId")
                      ++ " deleted."))])
  else if String.eqb name "neutron_get_rate" then getRate rt
  else if String.eqb name "neutron_get_fiat_institutions" then
    getFiatInstitutions rt (arg args "countryCode")
  else throw (JsError ("Unknown tool: " ++ name)).

(** The text the [catch] clause reports:
    [error instanceof Error ? error.message : String(error)]. *)
Definition error_text (e : exn) : string :=
  match e with
  | JsError message => message
  | JsThrown v => Js.to_string rt v
  end.

(** The handler registered for [CallToolRequestSchema]. The client is
    fetched before the [try] block is entered. *)
Definition call_tool (name : string) (arguments : option object) (p : process)
  : outcome CallToolResult * process :=
  let args := match arguments with Some a => a | None => [] end in
  match getClient p with
  | (Throw e, p') => (Throw e, p')
  | (Ok client, p') =>
      match dispatch name args client (outside p') with
      | (Ok result, client', w') =>
          (Ok {| content_text := Js.json_stringify rt 2 result; isError := false |},
           {| env := env p'; _client := Some client'; outside := w' |})
      | (Throw error, client', w') =>
          (Ok {| content_text := VStr ("Error: " ++ error_text error);
                 isError := true |},
           {| env := env p'; _client := Some client'; outside := w' |})
      end
  end.

End Handlers.

(* ===================================================================== *)
(** ** Sample data for the worked examples *)
(* ===================================================================== *)

(** A runtime whose platform functions return fixed texts; none of the
    examples below depends on what they return. *)
Definition sample_runtime : Runtime :=
  {| number_to_string := fun _ => "<number>";
     string_to_number := fun _ => Num.nan;
     json_text := fun _ _ => "<json>";
     hmac_sha256_hex := fun _ _ => "<signature>";
     date_get_time := fun _ => Num.nan;
     url_search_params_to_string := fun _ => EmptyString;
     encode_uri_component := fun s => s |}.

(** [supplied a k]: the intent [a] carries the field [k] (its value is not
    undefined). *)
Definition supplied (a : object) (k : string) : Prop :=
  Js.defined (arg a k) = true.

(** The guard of [ensureAuthenticated]: the cached response, the access
    token and the account id are truthy and the clock reading [t] is
    before the expiry. *)
Definition session_live (c : NeutronClient) (t : number) : Prop :=
  Js.truthy (cachedAuthResponse c) = true
  /\ Js.truthy (accessToken c) = true
  /\ Js.truthy (accountId c) = true
  /\ Num.ltb t (tokenExpiry c) = true.

(** The world once the clock reads [t]. *)
Definition at_time (t : number) (w : world) : world :=
  {| now := t; inbox := inbox w; sent := sent w |}.

(** [ensureAuthenticated] called once at each of the clock readings [ts],
    in order. *)
Fixpoint ensure_repeatedly (rt : Runtime) (ts : list number)
    (c : NeutronClient) (w : world) : NeutronClient * world :=
  match ts with
  | [] => (c, w)
  | t :: rest =>
      match ensureAuthenticated rt c (at_time t w) with
      | (_, c', w') => ensure_repeatedly rt rest c' w'
      end
  end.

(** A client whose cached session has an empty access token. *)
Definition client_with_empty_token : NeutronClient :=
  {| config := {| apiUrl := "https://api.neutron.me"; apiKey := "key";
                  apiSecret := "secret" |};
     accountId := VStr "acct-1";
     accessToken := VStr EmptyString;
     tokenExpiry := Num.of_Z 2000;
     cachedAuthResponse :=
       VObj [("accountId", VStr "acct-1"); ("accessToken", VStr EmptyString)] |}.

(** A client with a live session until clock reading 2000. *)
Definition live_client : NeutronClient :=
  {| config := {| apiUrl := "https://api.neutron.me"; apiKey := "key";
                  apiSecret := "secret" |};
     accountId := VStr "acct-1";
     accessToken := VStr "token-1";
     tokenExpiry := Num.of_Z 2000;
     cachedAuthResponse :=
       VObj [("accountId", VStr "acct-1"); ("accessToken", VStr "token-1")] |}.

(** A world at clock reading 1000 in which nothing was sent yet and the
    coming fetches settle as [events] says. *)
Definition world_with (events : list (net_event * number)) : world :=
  {| now := Num.of_Z 1000; inbox := events; sent := [] |}.

(** A 400 response whose body has an empty [error] field and a [message]. *)
Definition response_with_empty_error : http_response :=
  {| status := 400%N; statusText := "Bad Request";
     json_body := inr (VObj [("error", VStr EmptyString); ("message", VStr "Y")]) |}.

(** A 400 response whose body has an [error] and a [message] field. *)
Definition response_with_error_and_message : http_response :=
  {| status := 400%N; statusText := "Bad Request";
     json_body := inr (VObj [("error", VStr "X"); ("message", VStr "Y")]) |}.

(** The response of the token endpoint to the handshake. *)
Definition token_response : http_response :=
  {| status := 200%N; statusText := "OK";
     json_body := inr (VObj [("accountId", VStr "acct-1");
                             ("accessToken", VStr "token-1")]) |}.

(** The response to the creation of a transaction, and to its
    confirmation. *)
Definition created_response : http_response :=
  {| status := 200%N; statusText := "OK";
     json_body := inr (VObj [("txnId", VStr "txn-1"); ("txnState", VStr "quoted")]) |}.

Definition confirmed_response : http_response :=
  {| status := 200%N; statusText := "OK";
     json_body :=
       inr (VObj [("txnId", VStr "txn-1");
                  ("txnState", VStr "completed");
                  ("sourceReq",
                   VObj [("ccy", VStr "BTC");
                         ("method", VStr "lightning");
                         ("reqDetails",
                          VObj [("paymentRequest", VStr "lnbc50u1p");
                                ("invoicePageUrl",
                                 VStr "https://pay.neutron.me/i/txn-1")])])]) |}.

(** A process started without credentials in its environment. *)
Definition process_without_credentials : process :=
  {| env := {| NEUTRON_API_URL := None; NEUTRON_API_KEY := None;
               NEUTRON_API_SECRET := None |};
     _client := None;
     outside := world_with [] |}.

(** The request of the bootstrap handshake, for a configuration. *)
Definition handshake_request (rt : Runtime) (cfg : NeutronConfig) : http_request :=
  {| req_method := "POST";
     req_url := apiUrl cfg ++ "/api/v2/authentication/token-signature";
     req_headers :=
       [("Content-Type", "application/json");
        ("X-Api-Key", apiKey cfg);
        ("X-Api-Signature",
         hmac_sha256_hex rt (apiSecret cfg)
           (apiKey cfg ++ "&payload="
            ++ Js.to_string rt (Js.json_stringify rt 0 (VObj [("test", VStr "auth")]))))];
     req_body := Js.json_stringify rt 0 (VObj [("test", VStr "auth")]) |}.

(** The client after [authenticate] has cleared its session. *)
Definition cleared (c : NeutronClient) : NeutronClient :=
  {| config := config c; accountId := VNull; accessToken := VNull;
     tokenExpiry := Num.zero; cachedAuthResponse := VNull |}.

(** The client once the handshake response [v] is stored, the clock reading
    [t] after the response. *)
Definition with_session (rt : Runtime) (c : NeutronClient) (v : value) (t : number)
  : NeutronClient :=
  {| config := config c;
     accountId := Js.get_opt v "accountId";
     accessToken := Js.get_opt v "accessToken";
     tokenExpiry :=
       if Js.truthy (Js.get_opt v "expiredAt")
       then date_get_time rt (Js.get_opt v "expiredAt")
       else Num.add t (Num.of_Z 3600000);
     cachedAuthResponse := v |}.

(** The world after one fetch of [rq] that settled at clock reading [t]. *)
Definition after_fetch (w : world) (rq : http_request) (t : number)
    (rest : list (net_event * number)) : world :=
  {| now := t; inbox := rest; sent := sent w ++ [rq] |}.
(** A client that has never authenticated. *)
Definition fresh_client : NeutronClient :=
  new_client {| apiUrl := "https://api.neutron.me"; apiKey := "key";
                apiSecret := "secret" |}.

(** A 401 response of the token endpoint whose body has both a [message]
    and an [error]. *)
Definition rejected_response : http_response :=
  {| status := 401%N; statusText := "Unauthorized";
     json_body := inr (VObj [("error", VStr "E"); ("message", VStr "M")]) |}.

(** The request that [request] sends for a method, a path and a body, with
    the client as the session manager left it. *)
Definition api_request (rt : Runtime) (method path : string) (body : value)
    (c : NeutronClient) : http_request :=
  {| req_method := method;
     req_url := apiUrl (config c) ++ path;
     req_headers :=
       ("Authorization", "Bearer " ++ Js.to_string rt (accessToken c))
       :: (if Js.truthy body then [("Content-Type", "application/json")] else []);
     req_body := if Js.truthy body then Js.json_stringify rt 0 body else VUndefined |}.

(** A success response without a JSON body, as a 204 No Content is. *)
Definition no_content_response : http_response :=
  {| status := 204%N; statusText := "No Content";
     json_body := inl "Unexpected end of JSON input" |}.

(** A process whose environment has credentials and no client yet. *)
Definition configured_process : process :=
  {| env := {| NEUTRON_API_URL := None; NEUTRON_API_KEY := Some "key";
               NEUTRON_API_SECRET := Some "secret" |};
     _client := None;
     outside := world_with [] |}.

(** The names of the [tools] catalogue, in order. *)
Definition tool_names : list string :=
  ["neutron_authenticate";
   "neutron_get_account";
   "neutron_get_wallets";
   "neutron_get_wallet";
   "neutron_create_lightning_invoice";
   "neutron_create_transaction";
   "neutron_confirm_transaction";
   "neutron_get_transaction";
   "neutron_list_transactions";
   "neutron_decode_invoice";
   "neutron_resolve_lightning_address";
   "neutron_resolve_lnurl";
   "neutron_get_btc_address";
   "neutron_get_usdt_address";
   "neutron_create_webhook";
   "neutron_list_webhooks";
   "neutron_update_webhook";
   "neutron_delete_webhook";
   "neutron_get_rate";
   "neutron_get_fiat_institutions"].

(** [m] never shortens the log of requests. *)
Definition keeps_log {A : Type} (m : M A) : Prop :=
  forall c w, (List.length (sent w) <= List.length (sent (snd (m c w))))%nat.

(** [m] sends at least one request. *)
Definition sends {A : Type} (m : M A) : Prop :=
  forall c w, (List.length (sent w) < List.length (sent (snd (m c w))))%nat.

(** [m] has sent at least one request whenever it throws. *)
Definition sends_before_throwing {A : Type} (m : M A) : Prop :=
  forall c w,
    match fst (fst (m c w)) with
    | Throw _ => (List.length (sent w) < List.length (sent (snd (m c w))))%nat
    | Ok _ => True
    end.

(** A process with a live client. *)
Definition running_process : process :=
  {| env := env configured_process; _client := Some live_client;
     outside := world_with [] |}.

(** The rail-specific fields copied into the destination details. *)
Definition detail_keys : list string :=
  ["paymentRequest"; "lnurl"; "address"; "bankAcctNum"; "institutionCode"].

(** A configured process before its first tool call, with the service
    about to answer the handshake and one API call. *)
Definition starting_process : process :=
  {| env := env configured_process; _client := None;
     outside := world_with [(NetReply token_response, Num.of_Z 1001);
                            (NetReply created_response, Num.of_Z 1002)] |}.

(** The client after the handshake answered by [token_response]. *)
Definition signed_in_client : NeutronClient :=
  with_session sample_runtime fresh_client
    (VObj [("accountId", VStr "acct-1"); ("accessToken", VStr "token-1")])
    (Num.of_Z 1001).

(* ===================================================================== *)
(** ** The lending tools of the 1.3.0 build of index.js *)
(* ===================================================================== *)

(** [v !== s] for a string literal [s]. *)
Definition differs_from_string (v : value) (s : string) : bool :=
  match v with
  | VStr s' => negb (String.eqb s' s)
  | _ => true
  end.

(** [process.env.NEUTRON_LENDING_URL || "http://localhost:3001"] *)
Definition lending_api (NEUTRON_LENDING_URL : option string) : string :=
  match NEUTRON_LENDING_URL with
  | Some u => if Js.truthy (VStr u) then u else "http://localhost:3001"
  | None => "http://localhost:3001"
  end.

Section Lending.
Variable rt : Runtime.
(** The base URL, read from the environment once, when the module loads. *)
Variable LENDING_API : string.

Definition lending_fetch_request (method path : string) (body : value)
  : http_request :=
  {| req_method := method;
     req_url := LENDING_API ++ path;
     req_headers := [("Content-Type", "application/json")];
     req_body := if Js.truthy body then Js.json_stringify rt 0 body
                 else VUndefined |}.

Definition lendingRequest (method path : string) (body : value) : M value :=
  res <- fetch (lending_fetch_request method path body) ;;
  data <- json res ;;
  if negb (ok res) then
    error <- member (rt:=rt) data "error" ;;
    throw (JsError
             (Js.to_string rt
                (Js.or error (VStr ("Lending API error " ++ status_string res)))))
  else ret data.

(** case "neutron_lend_rollover"; [args] is the arguments object of the
    call, the empty object when the call has none. *)
Definition lend_rollover (args : object) : M value :=
  if negb (Js.truthy (arg args "acceptTerms")) then
    throw (JsError "Terms not accepted. You must present rollover terms to the user first: $500 flat fee, +1% interest rate increase, 1-year extension, non-refundable. Set acceptTerms=true only after explicit user confirmation.")
  else
    lendingRequest "POST"
      ("/api/loans/" ++ Js.to_string rt (arg args "loanId") ++ "/rollover")
      VUndefined.

(** case "neutron_lend_settle" *)
Definition lend_settle (args : object) : M value :=
  settleLoan <- lendingRequest "GET"
                  ("/api/loans/" ++ Js.to_string rt (arg args "loanId"))
                  VUndefined ;;
  status <- member (rt:=rt) settleLoan "status" ;;
  if differs_from_string status "repaid" then
    throw (JsError
             ("Loan status is '" ++ Js.to_string rt status
              ++ "' — must be 'repaid' to settle. Remaining owed: $"
              ++ Js.to_string rt
                   (Js.or (Js.get_opt settleLoan "remainingOwed")
                      (VStr "unknown"))))
  else
    dlcForSettle <- lendingRequest "GET"
                      ("/api/dlc/contracts/by-loan/"
                       ++ Js.to_string rt (arg args "loanId"))
                      VUndefined ;;
    if negb (Js.truthy dlcForSettle)
       || negb (Js.truthy (Js.get_opt dlcForSettle "contractId"))
    then
      throw (JsError
               "No DLC contract found for this loan. Cannot settle without multisig.")
    else
      settlement <- lendingRequest "POST"
                      ("/api/dlc/contracts/"
                       ++ Js.to_string rt (Js.get_opt dlcForSettle "contractId")
                       ++ "/settle")
                      VUndefined ;;
      txid <- member (rt:=rt) settlement "txid" ;;
      ret (VObj
             [("success", VBool true);
              ("loanId", arg args "loanId");
              ("contractId", Js.get_opt dlcForSettle "contractId");
              ("settlementTxid", Js.or txid (Js.get_opt settlement "settlementTxid"));
              ("returnAddress", Js.get_opt settleLoan "returnAddress");
              ("explorer",
               if Js.truthy txid
               then VStr ("https://mempool.space/testnet4/tx/"
                          ++ Js.to_string rt txid)
               else VNull);
              ("message",
               VStr "BTC collateral released from multisig back to borrower. Settlement transaction broadcast to network.")]).

End Lending.

(** A loan that is repaid, its contract, and the settlement. *)
Definition repaid_loan_response : http_response :=
  {| status := 200%N; statusText := "OK";
     json_body := inr (VObj [("status", VStr "repaid");
                             ("returnAddress", VStr "tb1q")]) |}.

Definition contract_response : http_response :=
  {| status := 200%N; statusText := "OK";
     json_body := inr (VObj [("contractId", VStr "dlc-1")]) |}.

Definition settlement_response : http_response :=
  {| status := 200%N; statusText := "OK";
     json_body := inr (VObj [("txid", VStr "abcd")]) |}.

(** A 500 response of the lending service with an HTML body. *)
Definition lending_crash_response : http_response :=
  {| status := 500%N; statusText := "Internal Server Error";
     json_body := inl "Unexpected token < in JSON at position 0" |}.

(* ===================================================================== *)
(** ** Further vocabulary and sample data *)
(* ===================================================================== *)

(** [m] only adds to the log of requests: what was sent stays sent. *)
Definition appends {A : Type} (m : M A) : Prop :=
  forall c w, exists more, sent (snd (m c w)) = (sent w ++ more)%list.

(** A 400 response whose body is the JSON document [null]. *)
Definition null_body_response : http_response :=
  {| status := 400%N; statusText := "Bad Request"; json_body := inr VNull |}.

(** The world in which the creation and the confirmation of an invoice
    are both answered. *)
Definition invoice_world : world :=
  world_with [(NetReply created_response, Num.of_Z 1001);
              (NetReply confirmed_response, Num.of_Z 1002)].

(* ===================================================================== *)
(** * Properties of the transaction normalizer *)
(* ===================================================================== *)

Lemma truthy_or (a b : value) :
  Js.truthy (Js.or a b) = Js.truthy a || Js.truthy b.
Proof.
  unfold Js.or. destruct (Js.truthy a) eqn:E; simpl; [exact E | reflexivity].
Qed.

Lemma truthy_build_kyc (a : object) :
  Js.truthy (build_kyc a)
  = Js.truthy (arg a "recipientName") || Js.truthy (arg a "countryCode").
Proof.
  unfold build_kyc. rewrite truthy_or.
  destruct (Js.truthy (arg a "recipientName") || Js.truthy (arg a "countryCode"));
    reflexivity.
Qed.

Lemma truthy_build_sourceOfFunds (a : object) :
  Js.truthy (build_sourceOfFunds a) = Js.truthy (arg a "bankAcctNum").
Proof.
  unfold build_sourceOfFunds.
  destruct (Js.truthy (arg a "bankAcctNum")); reflexivity.
Qed.

(** Case analysis on the four conditional spreads of [transaction_body]. *)
Ltac split_body a :=
  unfold transaction_body;
  destruct (Js.defined (arg a "sourceAmount")) eqn:?;
  destruct (Js.defined (arg a "destAmount")) eqn:?;
  destruct (Js.truthy (build_kyc a)) eqn:?;
  destruct (Js.truthy (build_sourceOfFunds a)) eqn:?;
  cbn.

(** C2. Amount-exclusivity pass-through: with only [sourceAmount] defined,
    [sourceReq.amtRequested] is present and equal to it while [destReq]
    has no [amtRequested] key; symmetrically with only [destAmount]
    defined. *)
Theorem amount_exclusivity_pass_through (a : object) :
  (supplied a "sourceAmount" -> ~ supplied a "destAmount" ->
     Js.path ["sourceReq"; "amtRequested"] (transaction_body a)
       = Some (arg a "sourceAmount")
     /\ Js.path ["destReq"; "amtRequested"] (transaction_body a) = None)
  /\
  (supplied a "destAmount" -> ~ supplied a "sourceAmount" ->
     Js.path ["destReq"; "amtRequested"] (transaction_body a)
       = Some (arg a "destAmount")
     /\ Js.path ["sourceReq"; "amtRequested"] (transaction_body a) = None).
Proof.
  unfold supplied.
  split; intros Hyes Hno; split_body a; try congruence; split; reflexivity.
Qed.

Lemma amount_exclusivity_witness :
  supplied [("sourceCcy", VStr "BTC"); ("sourceMethod", VStr "neutronpay");
            ("sourceAmount", VNum (Num.of_Z 1));
            ("destCcy", VStr "USDT"); ("destMethod", VStr "neutronpay")]
    "sourceAmount"
  /\ Js.path ["sourceReq"; "amtRequested"]
       (transaction_body
          [("sourceCcy", VStr "BTC"); ("sourceMethod", VStr "neutronpay");
           ("sourceAmount", VNum (Num.of_Z 1));
           ("destCcy", VStr "USDT"); ("destMethod", VStr "neutronpay")])
     = Some (VNum (Num.of_Z 1))
  /\ Js.path ["destReq"; "amtRequested"]
       (transaction_body
          [("sourceCcy", VStr "BTC"); ("sourceMethod", VStr "neutronpay");
           ("sourceAmount", VNum (Num.of_Z 1));
           ("destCcy", VStr "USDT"); ("destMethod", VStr "neutronpay")])
     = None.
Proof.
  split; [reflexivity |].
  apply (proj1 (amount_exclusivity_pass_through
                  [("sourceCcy", VStr "BTC"); ("sourceMethod", VStr "neutronpay");
                   ("sourceAmount", VNum (Num.of_Z 1));
                   ("destCcy", VStr "USDT"); ("destMethod", VStr "neutronpay")])).
  - reflexivity.
  - unfold supplied; simpl; discriminate.
Defined.

(** C6, as stated, fails: an intent that supplies an empty [recipientName]
    gets no [kyc] block. *)
Lemma kyc_absent_when_recipientName_empty :
  ~ (forall a : object,
       Js.path ["destReq"; "kyc"] (transaction_body a) <> None
       <-> (supplied a "recipientName" \/ supplied a "countryCode")).
Proof.
  intro H.
  destruct (H [("recipientName", VStr EmptyString)]) as [_ H2].
  apply H2; [left; reflexivity | reflexivity].
Qed.

(** C6, amended. [destReq.kyc] is present exactly when [recipientName] or
    [countryCode] is truthy (supplied and not empty); when present, its
    [type] is [kycType] if that is truthy and "individual" otherwise, and
    its details carry [recipientName] and [countryCode] as supplied. *)
Theorem kyc_derivation (a : object) :
  Js.path ["destReq"; "kyc"] (transaction_body a)
  = if Js.truthy (arg a "recipientName") || Js.truthy (arg a "countryCode")
    then Some (VObj [("type", if Js.truthy (arg a "kycType")
                              then arg a "kycType" else VStr "individual");
                     ("details",
                      VObj [("legalFullName", arg a "recipientName");
                            ("countryCode", arg a "countryCode")])])
    else None.
Proof.
  rewrite <- truthy_build_kyc.
  split_body a; try reflexivity.
  all: unfold build_kyc in *;
    destruct (Js.truthy (Js.or (arg a "recipientName") (arg a "countryCode")));
    try discriminate; reflexivity.
Qed.

(** C7, as stated, fails: an intent that supplies an empty [bankAcctNum]
    gets no [sourceOfFunds]. *)
Lemma sourceOfFunds_absent_when_bankAcctNum_empty :
  ~ (forall a : object,
       Js.lookup "sourceOfFunds" (transaction_body a) <> None
       <-> supplied a "bankAcctNum").
Proof.
  intro H.
  destruct (H [("bankAcctNum", VStr EmptyString)]) as [_ H2].
  apply H2; reflexivity.
Qed.

(** C7, amended. The request has a top-level [sourceOfFunds] exactly when
    [bankAcctNum] is truthy (supplied and not empty); it is then
    [{purpose: 1, source: 5, relationship: 3}], and otherwise the key is
    absent from the request object. *)
Theorem sourceOfFunds_derivation (a : object) :
  Js.lookup "sourceOfFunds" (transaction_body a)
  = if Js.truthy (arg a "bankAcctNum")
    then Some (VObj [("purpose", VNum (Num.of_Z 1));
                     ("source", VNum (Num.of_Z 5));
                     ("relationship", VNum (Num.of_Z 3))])
    else None.
Proof.
  rewrite <- truthy_build_sourceOfFunds.
  split_body a; try reflexivity.
  all: unfold build_sourceOfFunds in *;
    destruct (Js.truthy (arg a "bankAcctNum")); try discriminate; reflexivity.
Qed.

(** C9, as stated, fails: an empty [extRefId] is included in the request,
    in the object and in the JSON document that is sent. *)
Lemma empty_extRefId_is_included :
  Js.lookup "extRefId" (transaction_body [("extRefId", VStr EmptyString)])
    = Some (VStr EmptyString)
  /\ Js.json_doc (VObj (transaction_body [("extRefId", VStr EmptyString)]))
     = Some (VObj [("extRefId", VStr EmptyString);
                   ("sourceReq", VObj [("reqDetails", VObj [])]);
                   ("destReq", VObj [("reqDetails", VObj [])])]).
Proof. split; reflexivity. Qed.

(** C9, amended. The request object always has the key [extRefId], bound to
    the intent's [extRefId] as it is; the JSON document that is sent has
    the field exactly when the intent's [extRefId] is not undefined, so an
    empty string is passed through. *)
Theorem extRefId_pass_through (a : object) :
  Js.lookup "extRefId" (transaction_body a) = Some (arg a "extRefId")
  /\ exists doc,
       Js.json_doc (VObj (transaction_body a)) = Some (VObj doc)
       /\ Js.lookup "extRefId" doc = Js.json_doc (arg a "extRefId").
Proof.
  split.
  - split_body a; reflexivity.
  - unfold transaction_body, build_sourceOfFunds.
    destruct (Js.truthy (arg a "bankAcctNum"));
      destruct (Js.json_doc (arg a "extRefId")) eqn:E; cbn; rewrite E.
    all: eexists; split; [reflexivity |]; reflexivity.
Qed.

(* ===================================================================== *)
(** * Properties of the Lightning-invoice shortcut *)
(* ===================================================================== *)

(** The two transaction-shaped cases of the [switch]. *)
Lemma dispatch_create_lightning_invoice (rt : Runtime) (args : object) :
  dispatch rt "neutron_create_lightning_invoice" args
  = create_lightning_invoice rt args.
Proof. reflexivity. Qed.

Lemma dispatch_create_transaction (rt : Runtime) (args : object) :
  dispatch rt "neutron_create_transaction" args
  = request rt "POST" "/api/v2/transaction" (VObj (transaction_body args)).
Proof. reflexivity. Qed.

(* ===================================================================== *)
(** * Properties of the session manager *)
(* ===================================================================== *)

(** The guard of [ensureAuthenticated] holds: the cached response is
    returned and nothing changes. *)
Lemma ensureAuthenticated_live (rt : Runtime) (c : NeutronClient) (w : world) :
  session_live c (now w) ->
  ensureAuthenticated rt c w = (Ok (cachedAuthResponse c), c, w).
Proof.
  intros (H1 & H2 & H3 & H4).
  unfold ensureAuthenticated, bind, this, date_now.
  rewrite H1, H2, H3, H4. reflexivity.
Qed.

(** C4, as stated, fails: with a cached response, an access token that is
    not null (the empty string) and an account id, before the expiry,
    [ensureAuthenticated] sends the handshake request. *)
Lemma empty_token_is_not_cached :
  cachedAuthResponse client_with_empty_token <> VNull
  /\ accessToken client_with_empty_token <> VNull
  /\ accountId client_with_empty_token <> VNull
  /\ Num.ltb (now (world_with [])) (tokenExpiry client_with_empty_token) = true
  /\ sent (world_with []) = []
  /\ map req_url
       (sent (snd (ensureAuthenticated sample_runtime client_with_empty_token
                     (world_with []))))
     = ["https://api.neutron.me/api/v2/authentication/token-signature"].
Proof. repeat split; try discriminate; reflexivity. Qed.

(** C4, amended. When the cached response, the access token and the
    account id are truthy (for the strings: not null and not empty) and the
    clock reads a time before the cached expiry, [ensureAuthenticated]
    returns the cached response and leaves the client fields and the world
    as they were: nothing is sent. Calls repeated at any clock readings
    before the expiry send nothing either. *)
Theorem ensureAuthenticated_cached (rt : Runtime) (c : NeutronClient) (w : world) :
  (session_live c (now w) ->
     ensureAuthenticated rt c w = (Ok (cachedAuthResponse c), c, w))
  /\
  (forall ts,
     Forall (session_live c) ts ->
     fst (ensure_repeatedly rt ts c w) = c
     /\ sent (snd (ensure_repeatedly rt ts c w)) = sent w
     /\ inbox (snd (ensure_repeatedly rt ts c w)) = inbox w).
Proof.
  split; [apply ensureAuthenticated_live |].
  intros ts. revert w. induction ts as [| t ts IH]; intros w Hts.
  - repeat split.
  - inversion Hts as [| ? ? Ht Hrest]; subst.
    simpl. rewrite (ensureAuthenticated_live rt c (at_time t w)) by exact Ht.
    destruct (IH (at_time t w) Hrest) as (E1 & E2 & E3).
    repeat split; assumption.
Qed.

Lemma ensureAuthenticated_cached_witness :
  session_live live_client (now (world_with []))
  /\ ensureAuthenticated sample_runtime live_client (world_with [])
     = (Ok (cachedAuthResponse live_client), live_client, world_with []).
Proof.
  assert (L : session_live live_client (now (world_with [])))
    by (repeat split; reflexivity).
  split; [exact L |].
  exact (proj1 (ensureAuthenticated_cached sample_runtime live_client (world_with [])) L).
Defined.

(* ===================================================================== *)
(** * Properties of the request dispatcher *)
(* ===================================================================== *)

(** Once the session is ensured, [request] sends its own request with the
    client as the handshake left it. *)
Lemma request_after_auth (rt : Runtime) (method path : string) (body : value)
    (c c1 : NeutronClient) (w w1 : world) (v : value) :
  ensureAuthenticated rt c w = (Ok v, c1, w1) ->
  request rt method path body c w
  = (response <- fetch
       {| req_method := method;
          req_url := apiUrl (config c1) ++ path;
          req_headers :=
            ("Authorization", "Bearer " ++ Js.to_string rt (accessToken c1))
            :: (if Js.truthy body then [("Content-Type", "application/json")]
                else []);
          req_body := if Js.truthy body then Js.json_stringify rt 0 body
                      else VUndefined |} ;;
     if negb (ok response) then
       detail <- or_else (member (rt:=rt) (json_or_empty response) "error")
                   (or_else (member (rt:=rt) (json_or_empty response) "message")
                      (ret (VStr (statusText response)))) ;;
       throw (JsError ("API Error " ++ status_string response ++ ": "
                       ++ Js.to_string rt detail))
     else json response) c1 w1.
Proof.
  intros Hauth. unfold request.
  unfold bind at 1. rewrite Hauth.
  unfold bind at 1, this at 1. reflexivity.
Qed.

(** C3, as stated, fails: the body's [error] field is present (an empty
    string) and the message reports the [message] field. *)
Lemma empty_error_field_is_skipped :
  Js.get (json_or_empty response_with_empty_error) "error"
    = Some (VStr EmptyString)
  /\ fst (fst (request sample_runtime "GET" "/api/v2/rate" VUndefined live_client
                 (world_with [(NetReply response_with_empty_error, Num.of_Z 1001)])))
     = Throw (JsError "API Error 400: Y").
Proof. split; reflexivity. Qed.

(** C3, amended. Once the session is ensured, for a response that is not a
    success and whose body is not the JSON value null, the failure raised
    by [request] has the message
    "API Error <status>: <detail>" where the detail is the body's [error]
    field if it is truthy (present and not empty), else the body's
    [message] field if it is truthy, else the HTTP status text; a body that
    does not parse counts as an empty object. *)
Theorem api_error_message_priority (rt : Runtime) (method path : string)
    (body : value) (c c1 : NeutronClient) (w w1 : world) (session : value)
    (r : http_response) (t : number) (rest : list (net_event * number)) :
  ensureAuthenticated rt c w = (Ok session, c1, w1) ->
  inbox w1 = (NetReply r, t) :: rest ->
  ok r = false ->
  Js.nullish (json_or_empty r) = false ->
  fst (fst (request rt method path body c w))
  = Throw (JsError
      ("API Error " ++ status_string r ++ ": "
       ++ Js.to_string rt
            (if Js.truthy (Js.get_opt (json_or_empty r) "error")
             then Js.get_opt (json_or_empty r) "error"
             else if Js.truthy (Js.get_opt (json_or_empty r) "message")
                  then Js.get_opt (json_or_empty r) "message"
                  else VStr (statusText r)))).
Proof.
  intros Hauth Hin Hok Hnn.
  rewrite (request_after_auth rt method path body c c1 w w1 session Hauth).
  unfold bind at 1, fetch. rewrite Hin. rewrite Hok. cbn [negb].
  unfold or_else, member, Js.get_opt.
  destruct (Js.get (json_or_empty r) "error") as [e |] eqn:Ee;
    [| destruct (json_or_empty r); discriminate].
  destruct (Js.get (json_or_empty r) "message") as [m |] eqn:Em;
    [| destruct (json_or_empty r); discriminate].
  unfold bind, ret, throw.
  destruct (Js.truthy e); [reflexivity |].
  destruct (Js.truthy m); reflexivity.
Qed.

Lemma api_error_message_priority_witness :
  ok response_with_error_and_message = false
  /\ fst (fst (request sample_runtime "GET" "/api/v2/rate" VUndefined live_client
                 (world_with
                    [(NetReply response_with_error_and_message, Num.of_Z 1001)])))
     = Throw (JsError "API Error 400: X").
Proof.
  split; [reflexivity |].
  exact (api_error_message_priority sample_runtime "GET" "/api/v2/rate" VUndefined
           live_client live_client
           (world_with [(NetReply response_with_error_and_message, Num.of_Z 1001)])
           (world_with [(NetReply response_with_error_and_message, Num.of_Z 1001)])
           (cachedAuthResponse live_client)
           response_with_error_and_message (Num.of_Z 1001) []
           eq_refl eq_refl eq_refl eq_refl).
Defined.

(** A successful response with a live session: [request] returns the parsed
    body, sends exactly its own request and leaves the client as it was. *)
Lemma request_ok (rt : Runtime) (method path : string) (body : value)
    (c : NeutronClient) (w : world)
    (r : http_response) (t : number) (rest : list (net_event * number))
    (v : value) :
  session_live c (now w) ->
  inbox w = (NetReply r, t) :: rest ->
  ok r = true ->
  json_body r = inr v ->
  request rt method path body c w
  = (Ok v, c,
     {| now := t; inbox := rest;
        sent := sent w ++
          [{| req_method := method;
              req_url := apiUrl (config c) ++ path;
              req_headers :=
                ("Authorization", "Bearer " ++ Js.to_string rt (accessToken c))
                :: (if Js.truthy body then [("Content-Type", "application/json")]
                    else []);
              req_body := if Js.truthy body then Js.json_stringify rt 0 body
                          else VUndefined |}] |}).
Proof.
  intros Hlive Hin Hok Hbody.
  rewrite (request_after_auth rt method path body c c w w (cachedAuthResponse c)
             (ensureAuthenticated_live rt c w Hlive)).
  unfold bind at 1, fetch. rewrite Hin, Hok. cbn [negb].
  unfold json. rewrite Hbody. reflexivity.
Qed.

(** C5. The Lightning shortcut, for a defined amount, a session that is
    ensured (cached, or obtained by the handshake) and then stays live, and
    two successful responses: the handler sends the creation request
    (source BTC over lightning with no amount and empty details,
    destination BTC to neutronpay with the BTC amount), then the
    confirmation of the returned [txnId], and nothing else; its result
    carries the confirmed transaction's [paymentRequest] as [invoice] and
    its [invoicePageUrl] as [qrPageUrl], next to the BTC amount and the
    satoshi amount computed back from it. *)
Theorem lightning_shortcut_sequence (rt : Runtime) (args : object)
    (c c1 : NeutronClient) (w w1 : world) (session : value)
    (r1 r2 : http_response) (t1 t2 : number) (rest : list (net_event * number))
    (btcAmount txn txnId confirmed sourceReq : value) :
  (supplied args "amountSats" \/ supplied args "amountBtc") ->
  btcAmount = (if Js.defined (arg args "amountSats")
               then Js.div rt (arg args "amountSats") (VNum Num.hundred_million)
               else arg args "amountBtc") ->
  ensureAuthenticated rt c w = (Ok session, c1, w1) ->
  session_live c1 t1 ->
  inbox w1 = (NetReply r1, t1) :: (NetReply r2, t2) :: rest ->
  ok r1 = true -> json_body r1 = inr txn -> Js.get txn "txnId" = Some txnId ->
  ok r2 = true -> json_body r2 = inr confirmed ->
  Js.get confirmed "sourceReq" = Some sourceReq ->
  exists result,
    create_lightning_invoice rt args c w
    = (Ok (VObj result), c1,
       {| now := t2; inbox := rest;
          sent := sent w1 ++
            [{| req_method := "POST";
                req_url := apiUrl (config c1) ++ "/api/v2/transaction";
                req_headers :=
                  [("Authorization", "Bearer " ++ Js.to_string rt (accessToken c1));
                   ("Content-Type", "application/json")];
                req_body :=
                  Js.json_stringify rt 0
                    (VObj [("extRefId", arg args "extRefId");
                           ("sourceReq", VObj [("ccy", VStr "BTC");
                                               ("method", VStr "lightning");
                                               ("reqDetails", VObj [])]);
                           ("destReq", VObj [("ccy", VStr "BTC");
                                             ("method", VStr "neutronpay");
                                             ("amtRequested", btcAmount);
                                             ("reqDetails", VObj [])])]) |};
             {| req_method := "PUT";
                req_url := apiUrl (config c1)
                           ++ ("/api/v2/transaction/" ++ Js.to_string rt txnId
                               ++ "/confirm");
                req_headers :=
                  [("Authorization", "Bearer " ++ Js.to_string rt (accessToken c1))];
                req_body := VUndefined |}] |})
    /\ Js.lookup "invoice" result
       = Some (Js.get_opt (Js.get_opt sourceReq "reqDetails") "paymentRequest")
    /\ Js.lookup "qrPageUrl" result
       = Some (Js.get_opt (Js.get_opt sourceReq "reqDetails") "invoicePageUrl")
    /\ Js.lookup "amountBtc" result = Some btcAmount
    /\ Js.lookup "amountSats" result
       = Some (Js.math_round rt (Js.mul rt btcAmount (VNum Num.hundred_million))).
Proof.
  intros Hamt Hbtc Hauth Hlive1 Hin Hok1 Hb1 Htxn Hok2 Hb2 Hsrc.
  assert (Hamount :
    lightning_btc_amount rt (arg args "amountSats") (arg args "amountBtc")
    = ret btcAmount).
  { unfold lightning_btc_amount, supplied in *. subst btcAmount.
    destruct (Js.defined (arg args "amountSats")); [reflexivity |].
    destruct Hamt as [H | H]; [discriminate | rewrite H; reflexivity]. }
  unfold create_lightning_invoice. rewrite Hamount.
  unfold bind at 1, ret at 1.
  unfold bind at 1, createTransaction.
  rewrite (request_after_auth rt "POST" "/api/v2/transaction" _ c c1 w w1 session
             Hauth).
  unfold bind at 1, fetch at 1. rewrite Hin, Hok1. cbn [negb].
  unfold json at 1. rewrite Hb1. unfold ret at 1.
  unfold bind at 1, member at 1. rewrite Htxn. unfold ret at 1.
  unfold bind at 1, confirmTransaction.
  rewrite (request_ok rt "PUT" _ VUndefined c1
             {| now := t1; inbox := (NetReply r2, t2) :: rest;
                sent := sent w1 ++ _ |}
             r2 t2 rest confirmed Hlive1 eq_refl Hok2 Hb2).
  unfold bind at 1, member at 1. rewrite Hsrc. unfold ret.
  eexists. split.
  - cbn [sent Js.truthy lightning_request]. rewrite <- app_assoc. reflexivity.
  - repeat split; reflexivity.
Qed.

Lemma lightning_shortcut_witness :
  exists result,
    create_lightning_invoice sample_runtime
      [("amountSats", VNum (Num.of_Z 5000))] live_client
      (world_with [(NetReply created_response, Num.of_Z 1001);
                   (NetReply confirmed_response, Num.of_Z 1002)])
    = (Ok (VObj result), live_client,
       {| now := Num.of_Z 1002; inbox := [];
          sent :=
            [{| req_method := "POST";
                req_url := "https://api.neutron.me/api/v2/transaction";
                req_headers := [("Authorization", "Bearer token-1");
                                ("Content-Type", "application/json")];
                req_body := VStr "<json>" |};
             {| req_method := "PUT";
                req_url := "https://api.neutron.me/api/v2/transaction/txn-1/confirm";
                req_headers := [("Authorization", "Bearer token-1")];
                req_body := VUndefined |}] |})
    /\ Js.lookup "invoice" result = Some (VStr "lnbc50u1p")
    /\ Js.lookup "qrPageUrl" result = Some (VStr "https://pay.neutron.me/i/txn-1")
    /\ Js.lookup "amountBtc" result
       = Some (VNum (Num.div (Num.of_Z 5000) Num.hundred_million))
    /\ Js.lookup "amountSats" result = Some (VNum (Num.of_Z 5000)).
Proof.
  refine (lightning_shortcut_sequence sample_runtime
            [("amountSats", VNum (Num.of_Z 5000))] live_client live_client
            (world_with [(NetReply created_response, Num.of_Z 1001);
                         (NetReply confirmed_response, Num.of_Z 1002)])
            (world_with [(NetReply created_response, Num.of_Z 1001);
                         (NetReply confirmed_response, Num.of_Z 1002)])
            (cachedAuthResponse live_client)
            created_response confirmed_response (Num.of_Z 1001) (Num.of_Z 1002) []
            _ _ (VStr "txn-1") _ _
            (or_introl eq_refl) eq_refl eq_refl _ eq_refl eq_refl eq_refl eq_refl
            eq_refl eq_refl eq_refl);
    repeat split; reflexivity.
Defined.

(** The first call of a process: the handshake comes first, then the
    creation and the confirmation. *)
Example lightning_shortcut_first_call :
  map (fun rq => (req_method rq, req_url rq))
    (sent (snd (create_lightning_invoice sample_runtime
                  [("amountSats", VNum (Num.of_Z 5000))]
                  (new_client {| apiUrl := "https://api.neutron.me";
                                 apiKey := "key"; apiSecret := "secret" |})
                  (world_with [(NetReply token_response, Num.of_Z 1001);
                               (NetReply created_response, Num.of_Z 1002);
                               (NetReply confirmed_response, Num.of_Z 1003)]))))
  = [("POST", "https://api.neutron.me/api/v2/authentication/token-signature");
     ("POST", "https://api.neutron.me/api/v2/transaction");
     ("PUT", "https://api.neutron.me/api/v2/transaction/txn-1/confirm")].
Proof. vm_compute. reflexivity. Qed.

(** The scenario of the specification: 5000 satoshis are requested as
    0.00005 BTC and reported back as 5000 satoshis. *)
Example lightning_shortcut_5000_sats :
  Js.path ["amountSats"]
    (match create_lightning_invoice sample_runtime
             [("amountSats", VNum (Num.of_Z 5000))] live_client
             (world_with [(NetReply created_response, Num.of_Z 1001);
                          (NetReply confirmed_response, Num.of_Z 1002)])
     with
     | (Ok (VObj result), _, _) => result
     | _ => []
     end)
  = Some (VNum (Num.of_Z 5000)).
Proof. vm_compute. reflexivity. Qed.

(* ===================================================================== *)
(** * Properties of the tool-call handler *)
(* ===================================================================== *)

(** Once the client exists, the handler never throws: what [dispatch]
    returns is reported as text, and what it throws as a failure result
    with [isError] set. *)
Lemma call_tool_reports_with_client (rt : Runtime) (name : string)
    (arguments : option object) (p : process) (c : NeutronClient) :
  _client p = Some c ->
  exists (res : CallToolResult) (p' : process),
    call_tool rt name arguments p = (Ok res, p')
    /\ (isError res = true
        <-> exists e c' w',
              dispatch rt name (match arguments with Some a => a | None => [] end)
                c (outside p) = (Throw e, c', w')).
Proof.
  intros Hc. unfold call_tool, getClient. rewrite Hc.
  destruct (dispatch rt name _ c (outside p)) as [[[result | e] c'] w'] eqn:E.
  - eexists; eexists; split; [reflexivity |]. simpl.
    split; [discriminate | intros (e & c2 & w2 & H); discriminate H].
  - eexists; eexists; split; [reflexivity |]. simpl.
    split; [intros _; exists e, c', w'; reflexivity | reflexivity].
Qed.

(** An unknown tool name is reported as a failure result. *)
Example unknown_tool_is_reported :
  fst (call_tool sample_runtime "no_such_tool" None
         {| env := env process_without_credentials;
            _client := Some live_client;
            outside := world_with [] |})
  = Ok {| content_text := VStr "Error: Unknown tool: no_such_tool";
          isError := true |}.
Proof. reflexivity. Qed.

(** C8 fails on the code: in a process without credentials the handler
    itself throws, for any tool, because [getClient] runs before the [try]
    block; no failure result is returned. *)
Theorem call_tool_throws_without_credentials :
  call_tool sample_runtime "neutron_get_rate" (Some []) process_without_credentials
  = (Throw (JsError
       ("NEUTRON_API_KEY and NEUTRON_API_SECRET environment variables are required. "
        ++ "Get your credentials at https://neutron.me")),
     process_without_credentials).
Proof. reflexivity. Qed.

(** The same for every tool name and argument object: without an API key
    in the environment and before a client exists, the handler throws. *)
Lemma call_tool_throws_without_api_key (rt : Runtime) (name : string)
    (arguments : option object) (p : process) :
  _client p = None ->
  NEUTRON_API_KEY (env p) = None ->
  exists e, call_tool rt name arguments p = (Throw e, p).
Proof.
  intros Hc Hk. unfold call_tool, getClient. rewrite Hc, Hk.
  eexists. reflexivity.
Qed.

(* ===================================================================== *)
(** * Satoshi arithmetic in binary64 *)
(* ===================================================================== *)

(** ** Shifting and rounding a mantissa *)



















(** ** The round trip of a satoshi amount *)





(** On the negative side the bound of the round trip is sharp:
    -3355443200000001 comes back as -3355443200000000. *)
Example satoshi_round_trip_fails_below_minus_2pow25_btc :
  Num.round
    (Num.mul (Num.div (Num.of_Z (-3355443200000001)) Num.hundred_million)
       Num.hundred_million)
  = Num.of_Z (-3355443200000000).
Proof. vm_compute. reflexivity. Qed.

(** The example of the specification: 10000 satoshis are 0.0001 BTC, the
    double 7378697629483821 * 2^-66. *)
Example ten_thousand_sats_in_btc :
  Num.div (Num.of_Z 10000) Num.hundred_million
  = S754_finite false 7378697629483821 (-66).
Proof. vm_compute. reflexivity. Qed.

Lemma session_live_dec (c : NeutronClient) (t : number) :
  session_live c t \/
  (Js.truthy (cachedAuthResponse c) && Js.truthy (accessToken c)
   && Js.truthy (accountId c) && Num.ltb t (tokenExpiry c)) = false.
Proof.
  unfold session_live.
  destruct (Js.truthy (cachedAuthResponse c)), (Js.truthy (accessToken c)),
    (Js.truthy (accountId c)), (Num.ltb t (tokenExpiry c)); simpl; auto.
Qed.

(** Without a live session, [ensureAuthenticated] is the handshake: one
    fetch, then the reading of the response. *)
Lemma ensureAuthenticated_handshake (rt : Runtime) (c : NeutronClient) (w : world) :
  ~ session_live c (now w) ->
  ensureAuthenticated rt c w
  = match inbox w with
    | [] => (Throw (JsError "fetch failed"), c,
             {| now := now w; inbox := []; sent := sent w ++ [handshake_request rt (config c)] |})
    | (NetFail msg, t) :: rest =>
        (Throw (JsError msg), c, after_fetch w (handshake_request rt (config c)) t rest)
    | (NetReply r, t) :: rest =>
        let w' := after_fetch w (handshake_request rt (config c)) t rest in
        if ok r then
          match json_body r with
          | inl msg => (Throw (JsError msg), c, w')
          | inr v =>
              if Js.nullish v
              then (Throw (JsError ("Cannot read properties of " ++ Js.to_string rt v
                                    ++ " (reading 'accountId')")), c, w')
              else (Ok v, with_session rt c v t, w')
          end
        else
          if Js.nullish (json_or_empty r)
          then (Throw (JsError ("Cannot read properties of "
                                ++ Js.to_string rt (json_or_empty r)
                                ++ " (reading 'message')")), c, w')
          else
            (Throw (JsError
               ("Authentication failed: " ++ status_string r ++ " - "
                ++ Js.to_string rt
                     (if Js.truthy (Js.get_opt (json_or_empty r) "message")
                      then Js.get_opt (json_or_empty r) "message"
                      else if Js.truthy (Js.get_opt (json_or_empty r) "error")
                           then Js.get_opt (json_or_empty r) "error"
                           else VStr (statusText r)))), c, w')
    end.
Proof.
  intros Hdead.
  destruct (session_live_dec c (now w)) as [H | Hg]; [contradiction |].
  unfold ensureAuthenticated.
  unfold bind at 1, this at 1. unfold bind at 1, date_now at 1.
  rewrite Hg.
  unfold bind at 1, generateSignature, bind at 1, this at 1, ret at 1.
  unfold bind at 1, fetch.
  fold (handshake_request rt (config c)).
  destruct (inbox w) as [| [[r | msg] t] rest]; try reflexivity.
  cbn [after_fetch].
  destruct (ok r); cbn [negb].
  - unfold bind at 1, json. destruct (json_body r) as [msg | v]; [reflexivity |].
    unfold ret at 1. unfold member, Js.get_opt.
    destruct v; reflexivity.
  - unfold or_else, member, Js.get_opt.
    destruct (json_or_empty r) eqn:E; cbn [Js.nullish Js.get]; try reflexivity.
    unfold bind, ret, throw.
    repeat match goal with
           | |- context [if Js.truthy ?x then _ else _] => destruct (Js.truthy x)
           end; reflexivity.
Qed.

Lemma session_live_guard (c : NeutronClient) (t : number) :
  session_live c t
  <-> (Js.truthy (cachedAuthResponse c) && Js.truthy (accessToken c)
       && Js.truthy (accountId c) && Num.ltb t (tokenExpiry c)) = true.
Proof.
  unfold session_live. rewrite !andb_true_iff. tauto.
Qed.

(** What [ensureAuthenticated] does to the log and to the client: with a
    live session nothing; otherwise the handshake is sent, the
    configuration stays, and a failure leaves the client as it was. *)
Lemma ensureAuthenticated_sent (rt : Runtime) (c : NeutronClient) (w : world) :
  (session_live c (now w)
     /\ ensureAuthenticated rt c w = (Ok (cachedAuthResponse c), c, w))
  \/ (~ session_live c (now w)
      /\ sent (snd (ensureAuthenticated rt c w))
         = (sent w ++ [handshake_request rt (config c)])%list
      /\ config (snd (fst (ensureAuthenticated rt c w))) = config c
      /\ match fst (fst (ensureAuthenticated rt c w)) with
         | Throw _ => snd (fst (ensureAuthenticated rt c w)) = c
         | Ok _ => True
         end).
Proof.
  destruct (session_live_dec c (now w)) as [Hlive | Hg].
  - left. split; [exact Hlive | apply ensureAuthenticated_live; exact Hlive].
  - right.
    assert (Hdead : ~ session_live c (now w)).
    { intros Hl. apply session_live_guard in Hl. congruence. }
    split; [exact Hdead |].
    rewrite (ensureAuthenticated_handshake rt c w Hdead).
    destruct (inbox w) as [| [[r | msg] t] rest]; cbn [after_fetch];
      try (repeat split; reflexivity).
    destruct (ok r).
    + destruct (json_body r) as [msg | v]; [repeat split; reflexivity |].
      destruct (Js.nullish v); repeat split; reflexivity.
    + destruct (Js.nullish (json_or_empty r)); repeat split; reflexivity.
Qed.

Lemma cleared_not_live (c : NeutronClient) (t : number) :
  ~ session_live (cleared c) t.
Proof. intros (H & _). discriminate H. Qed.

Lemma authenticate_unfold (rt : Runtime) (c : NeutronClient) (w : world) :
  authenticate rt c w = ensureAuthenticated rt (cleared c) w.
Proof. reflexivity. Qed.

(** X1. [authenticate] never reuses a session: whatever the client holds,
    exactly one sign-in request is sent.  When the sign-in succeeds the
    client holds the new session; when it fails the client is left with
    no session at all, the old one having been cleared first. *)
Theorem authenticate_forces_handshake (rt : Runtime) (c : NeutronClient) (w : world) :
  sent (snd (authenticate rt c w))
  = (sent w ++ [handshake_request rt (config c)])%list
  /\ match authenticate rt c w with
     | (Throw _, c', _) => c' = cleared c
     | (Ok v, c', w') => c' = with_session rt (cleared c) v (now w')
     end.
Proof.
  rewrite authenticate_unfold.
  rewrite (ensureAuthenticated_handshake rt (cleared c) w (cleared_not_live c (now w))).
  change (config (cleared c)) with (config c).
  destruct (inbox w) as [| [[r | msg] t] rest]; cbn [after_fetch]; try (split; reflexivity).
  destruct (ok r).
  - destruct (json_body r) as [msg | v]; [split; reflexivity |].
    destruct (Js.nullish v); split; reflexivity.
  - destruct (Js.nullish (json_or_empty r)); split; reflexivity.
Qed.

(** X2. A successful sign-in installs the session: when there is no live
    session and the service answers the sign-in with a success status and
    a JSON body that is not null, that body is returned and cached, the
    account id and the access token are taken from it, and the expiry is
    the time of [expiredAt] when that field is truthy and one hour after
    the reply otherwise. *)
Theorem handshake_installs_session (rt : Runtime) (c : NeutronClient) (w : world)
    (r : http_response) (t : number) (rest : list (net_event * number)) (v : value) :
  ~ session_live c (now w) ->
  inbox w = (NetReply r, t) :: rest ->
  ok r = true ->
  json_body r = inr v ->
  Js.nullish v = false ->
  ensureAuthenticated rt c w
  = (Ok v,
     {| config := config c;
        accountId := Js.get_opt v "accountId";
        accessToken := Js.get_opt v "accessToken";
        tokenExpiry :=
          if Js.truthy (Js.get_opt v "expiredAt")
          then date_get_time rt (Js.get_opt v "expiredAt")
          else Num.add t (Num.of_Z 3600000);
        cachedAuthResponse := v |},
     {| now := t; inbox := rest;
        sent := sent w ++ [handshake_request rt (config c)] |}).
Proof.
  intros Hdead Hin Hok Hbody Hv.
  rewrite (ensureAuthenticated_handshake rt c w Hdead), Hin, Hok, Hbody, Hv.
  reflexivity.
Qed.

Lemma handshake_installs_session_witness :
  ensureAuthenticated sample_runtime fresh_client
    (world_with [(NetReply token_response, Num.of_Z 1001)])
  = (Ok (VObj [("accountId", VStr "acct-1"); ("accessToken", VStr "token-1")]),
     {| config := config fresh_client;
        accountId := VStr "acct-1";
        accessToken := VStr "token-1";
        tokenExpiry := Num.of_Z 3601001;
        cachedAuthResponse :=
          VObj [("accountId", VStr "acct-1"); ("accessToken", VStr "token-1")] |},
     {| now := Num.of_Z 1001; inbox := [];
        sent := [handshake_request sample_runtime (config fresh_client)] |}).
Proof.
  refine (handshake_installs_session sample_runtime fresh_client
            (world_with [(NetReply token_response, Num.of_Z 1001)])
            token_response (Num.of_Z 1001) [] _ _ eq_refl eq_refl eq_refl eq_refl).
  intros (H & _). discriminate H.
Defined.

(** X3. A sign-in that fails changes nothing in the client: whenever
    [ensureAuthenticated] throws, the client is as it was, there was no
    live session, and exactly one sign-in request was sent. *)
Theorem failed_handshake_keeps_session (rt : Runtime) (c c' : NeutronClient)
    (w w' : world) (e : exn) :
  ensureAuthenticated rt c w = (Throw e, c', w') ->
  c' = c
  /\ sent w' = (sent w ++ [handshake_request rt (config c)])%list
  /\ ~ session_live c (now w).
Proof.
  intros H.
  destruct (ensureAuthenticated_sent rt c w) as [[_ Hok] | (Hdead & Hs & _ & Hc)].
  - rewrite Hok in H. discriminate H.
  - rewrite H in Hs, Hc. cbn [fst snd] in Hs, Hc. auto.
Qed.

Lemma failed_handshake_keeps_session_witness :
  ensureAuthenticated sample_runtime client_with_empty_token
    (world_with [(NetReply rejected_response, Num.of_Z 1001)])
  = (Throw (JsError "Authentication failed: 401 - M"), client_with_empty_token,
     after_fetch (world_with [(NetReply rejected_response, Num.of_Z 1001)])
       (handshake_request sample_runtime (config client_with_empty_token))
       (Num.of_Z 1001) [])
  /\ sent (after_fetch (world_with [(NetReply rejected_response, Num.of_Z 1001)])
             (handshake_request sample_runtime (config client_with_empty_token))
             (Num.of_Z 1001) [])
     = [handshake_request sample_runtime (config client_with_empty_token)].
Proof.
  split; [reflexivity |].
  exact (proj1 (proj2 (failed_handshake_keeps_session sample_runtime
                  client_with_empty_token client_with_empty_token
                  (world_with [(NetReply rejected_response, Num.of_Z 1001)])
                  (after_fetch (world_with [(NetReply rejected_response, Num.of_Z 1001)])
                     (handshake_request sample_runtime (config client_with_empty_token))
                     (Num.of_Z 1001) [])
                  (JsError "Authentication failed: 401 - M") eq_refl))).
Defined.

(** X4. The message of a rejected sign-in: for a reply with a status
    outside 200-299 the error reads
    "Authentication failed: <status> - <detail>", where the detail is the
    body's [message] if truthy, else its [error] if truthy, else the
    status text; a body that is not JSON counts as an empty object.  The
    one exception is a body that is the JSON document null: reading
    [message] from it fails, and that failure is what is thrown. *)
Theorem authentication_failure_message (rt : Runtime) (c : NeutronClient) (w : world)
    (r : http_response) (t : number) (rest : list (net_event * number)) :
  ~ session_live c (now w) ->
  inbox w = (NetReply r, t) :: rest ->
  ok r = false ->
  fst (fst (ensureAuthenticated rt c w))
  = if Js.nullish (json_or_empty r)
    then Throw (JsError ("Cannot read properties of "
                         ++ Js.to_string rt (json_or_empty r)
                         ++ " (reading 'message')"))
    else Throw (JsError
           ("Authentication failed: " ++ status_string r ++ " - "
            ++ Js.to_string rt
                 (if Js.truthy (Js.get_opt (json_or_empty r) "message")
                  then Js.get_opt (json_or_empty r) "message"
                  else if Js.truthy (Js.get_opt (json_or_empty r) "error")
                       then Js.get_opt (json_or_empty r) "error"
                       else VStr (statusText r)))).
Proof.
  intros Hdead Hin Hok.
  rewrite (ensureAuthenticated_handshake rt c w Hdead), Hin, Hok.
  cbv zeta. destruct (Js.nullish (json_or_empty r)); reflexivity.
Qed.

Lemma authentication_failure_message_witness :
  fst (fst (ensureAuthenticated sample_runtime fresh_client
              (world_with [(NetReply rejected_response, Num.of_Z 1001)])))
  = Throw (JsError "Authentication failed: 401 - M").
Proof.
  refine (authentication_failure_message sample_runtime fresh_client
            (world_with [(NetReply rejected_response, Num.of_Z 1001)])
            rejected_response (Num.of_Z 1001) [] _ eq_refl eq_refl).
  intros (H & _). discriminate H.
Defined.

(** A rejected sign-in whose body is null. *)
Example authentication_failure_null_body :
  fst (fst (ensureAuthenticated sample_runtime fresh_client
              (world_with [(NetReply null_body_response, Num.of_Z 1001)])))
  = Throw (JsError "Cannot read properties of null (reading 'message')").
Proof. vm_compute. reflexivity. Qed.

(** X5. A session is reused until it expires: after [ensureAuthenticated]
    has returned, leaving a truthy account id and access token, any
    number of further calls at times before the expiry send nothing and
    leave the client as it is. *)
Theorem session_reused_after_handshake (rt : Runtime) (c c1 : NeutronClient)
    (w w1 : world) (v : value) (ts : list number) :
  ensureAuthenticated rt c w = (Ok v, c1, w1) ->
  Js.truthy (accountId c1) = true ->
  Js.truthy (accessToken c1) = true ->
  Forall (fun t => Num.ltb t (tokenExpiry c1) = true) ts ->
  cachedAuthResponse c1 = v
  /\ fst (ensure_repeatedly rt ts c1 w1) = c1
  /\ sent (snd (ensure_repeatedly rt ts c1 w1)) = sent w1.
Proof.
  intros H Hacct Htok Hts.
  assert (Hcached : cachedAuthResponse c1 = v /\ Js.truthy v = true).
  { destruct (session_live_dec c (now w)) as [Hlive | Hg].
    - rewrite (ensureAuthenticated_live rt c w Hlive) in H.
      injection H as <- <- <-. split; [reflexivity | apply Hlive].
    - assert (Hdead : ~ session_live c (now w)).
      { intros Hl. apply session_live_guard in Hl. congruence. }
      rewrite (ensureAuthenticated_handshake rt c w Hdead) in H.
      destruct (inbox w) as [| [[r | msg] t] rest]; cbn [after_fetch] in H;
        try discriminate H.
      destruct (ok r).
      + destruct (json_body r) as [msg | v0]; [discriminate H |].
        destruct (Js.nullish v0) eqn:Hn; [discriminate H |].
        injection H as <- <- <-. split; [reflexivity |].
        destruct v0; try discriminate Hn; try discriminate Hacct; reflexivity.
      + destruct (Js.nullish (json_or_empty r)); discriminate H. }
  destruct Hcached as [Hc Hv]. split; [exact Hc |].
  assert (Hall : Forall (session_live c1) ts).
  { eapply Forall_impl; [| exact Hts]. intros t Ht.
    unfold session_live. rewrite Hc. auto. }
  clear H Hts. revert w1. induction ts as [| t ts IH]; intros w1.
  - split; reflexivity.
  - inversion Hall as [| ? ? Ht Hrest]; subst.
    simpl. rewrite (ensureAuthenticated_live rt c1 (at_time t w1)) by exact Ht.
    exact (IH Hrest (at_time t w1)).
Qed.

Lemma session_reused_after_handshake_witness :
  sent (snd (ensure_repeatedly sample_runtime [Num.of_Z 1002; Num.of_Z 5000]
               (with_session sample_runtime fresh_client
                  (VObj [("accountId", VStr "acct-1"); ("accessToken", VStr "token-1")])
                  (Num.of_Z 1001))
               (after_fetch (world_with [(NetReply token_response, Num.of_Z 1001)])
                  (handshake_request sample_runtime (config fresh_client))
                  (Num.of_Z 1001) [])))
  = [handshake_request sample_runtime (config fresh_client)].
Proof.
  refine (proj2 (proj2 (session_reused_after_handshake sample_runtime fresh_client _
            (world_with [(NetReply token_response, Num.of_Z 1001)]) _ _
            [Num.of_Z 1002; Num.of_Z 5000] eq_refl eq_refl eq_refl _))).
  repeat constructor.
Defined.

(* ===================================================================== *)
(** * Further properties of the request dispatcher *)
(* ===================================================================== *)

(** [request] after the session manager: one fetch of [api_request]. *)
Lemma request_after_auth_sends (rt : Runtime) (method path : string) (body : value)
    (c c1 : NeutronClient) (w w1 : world) (v : value) :
  ensureAuthenticated rt c w = (Ok v, c1, w1) ->
  exists o w2,
    request rt method path body c w = (o, c1, w2)
    /\ sent w2 = (sent w1 ++ [api_request rt method path body c1])%list.
Proof.
  intros Hauth.
  rewrite (request_after_auth rt method path body c c1 w w1 v Hauth).
  fold (api_request rt method path body c1).
  unfold bind at 1, fetch.
  destruct (inbox w1) as [| [[r | msg] t] rest];
    try (eexists; eexists; split; reflexivity).
  destruct (ok r); cbn [negb].
  - unfold json. destruct (json_body r); eexists; eexists; split; reflexivity.
  - unfold or_else, member.
    destruct (Js.get (json_or_empty r) "error") as [e |];
      [| eexists; eexists; split; reflexivity].
    destruct (Js.get (json_or_empty r) "message") as [m |];
      unfold bind, ret, throw; destruct (Js.truthy e);
      try destruct (Js.truthy m); eexists; eexists; split; reflexivity.
Qed.

(** When the session manager throws, [request] throws the same and sends
    nothing more. *)
Lemma request_auth_failure (rt : Runtime) (method path : string) (body : value)
    (c c1 : NeutronClient) (w w1 : world) (e : exn) :
  ensureAuthenticated rt c w = (Throw e, c1, w1) ->
  request rt method path body c w = (Throw e, c1, w1).
Proof.
  intros H. unfold request. unfold bind at 1. rewrite H. reflexivity.
Qed.

(** X6. [request] performs one API call, preceded by one handshake when the
    session is not live, and no API call at all when the handshake fails:
    there is no retry. *)
Theorem request_network_calls (rt : Runtime) (method path : string) (body : value)
    (c : NeutronClient) (w : world) :
  match ensureAuthenticated rt c w with
  | (Ok _, c1, w1) =>
      (sent w1 = sent w
       \/ sent w1 = (sent w ++ [handshake_request rt (config c)])%list)
      /\ sent (snd (request rt method path body c w))
         = (sent w1 ++ [api_request rt method path body c1])%list
  | (Throw e, c1, w1) =>
      sent w1 = (sent w ++ [handshake_request rt (config c)])%list
      /\ request rt method path body c w = (Throw e, c, w1)
  end.
Proof.
  destruct (ensureAuthenticated_sent rt c w) as [[_ H] | (_ & Hs & _ & Hc)].
  - rewrite H. split; [left; reflexivity |].
    destruct (request_after_auth_sends rt method path body c c w w _ H)
      as (o & w2 & -> & Hs). exact Hs.
  - destruct (ensureAuthenticated rt c w) as [[[v | e] c1] w1] eqn:E;
      cbn [fst snd] in Hs, Hc.
    + split; [right; exact Hs |].
      destruct (request_after_auth_sends rt method path body c c1 w w1 v E)
        as (o & w2 & -> & Hs2). exact Hs2.
    + subst c1. split; [exact Hs |].
      apply request_auth_failure. exact E.
Qed.

(** X7. Once the session is ensured, a success response is returned as its
    parsed JSON body, whatever its shape; a success response whose body
    does not parse as JSON makes [request] throw the parse error. *)
Theorem request_success_response (rt : Runtime) (method path : string)
    (body : value) (c c1 : NeutronClient) (w w1 : world) (session : value)
    (r : http_response) (t : number) (rest : list (net_event * number)) :
  ensureAuthenticated rt c w = (Ok session, c1, w1) ->
  inbox w1 = (NetReply r, t) :: rest ->
  ok r = true ->
  request rt method path body c w
  = (match json_body r with
     | inr v => Ok v
     | inl msg => Throw (JsError msg)
     end,
     c1, after_fetch w1 (api_request rt method path body c1) t rest).
Proof.
  intros Hauth Hin Hok.
  rewrite (request_after_auth rt method path body c c1 w w1 session Hauth).
  unfold bind at 1, fetch. rewrite Hin, Hok. cbn [negb].
  unfold json. destruct (json_body r); reflexivity.
Qed.

Lemma request_success_response_witness :
  request sample_runtime "GET" "/api/v2/rate" VUndefined live_client
    (world_with [(NetReply created_response, Num.of_Z 1001)])
  = (Ok (VObj [("txnId", VStr "txn-1"); ("txnState", VStr "quoted")]),
     live_client,
     after_fetch (world_with [(NetReply created_response, Num.of_Z 1001)])
       (api_request sample_runtime "GET" "/api/v2/rate" VUndefined live_client)
       (Num.of_Z 1001) []).
Proof.
  exact (request_success_response sample_runtime "GET" "/api/v2/rate" VUndefined
           live_client live_client
           (world_with [(NetReply created_response, Num.of_Z 1001)])
           (world_with [(NetReply created_response, Num.of_Z 1001)])
           (cachedAuthResponse live_client)
           created_response (Num.of_Z 1001) [] eq_refl eq_refl eq_refl).
Defined.

(* ===================================================================== *)
(** * Further properties of the tool-call handler *)
(* ===================================================================== *)

(** X8. Deleting a webhook with a live session and a success response: the
    result is the fixed confirmation naming the webhook, whatever the body
    says; a success response without a JSON body (a 204) is reported as
    the failure to parse it. *)
Theorem delete_webhook_outcome (rt : Runtime) (args : object)
    (c : NeutronClient) (w : world)
    (r : http_response) (t : number) (rest : list (net_event * number)) :
  session_live c (now w) ->
  inbox w = (NetReply r, t) :: rest ->
  ok r = true ->
  dispatch rt "neutron_delete_webhook" args c w
  = (match json_body r with
     | inr _ =>
         Ok (VObj [("success", VBool true);
                   ("message",
                    VStr ("Webhook " ++ Js.to_string rt (arg args "webhookId")
                          ++ " deleted."))])
     | inl msg => Throw (JsError msg)
     end,
     c,
     after_fetch w
       (api_request rt "DELETE"
          ("/api/v2/webhook/" ++ Js.to_string rt (arg args "webhookId"))
          VUndefined c)
       t rest).
Proof.
  intros Hlive Hin Hok.
  change (dispatch rt "neutron_delete_webhook" args)
    with (deleteWebhook rt (arg args "webhookId") ;;;
          ret (VObj [("success", VBool true);
                     ("message",
                      VStr ("Webhook " ++ Js.to_string rt (arg args "webhookId")
                            ++ " deleted."))])).
  unfold deleteWebhook. unfold bind at 1. unfold bind at 1.
  rewrite (request_after_auth rt "DELETE" _ VUndefined c c w w
             (cachedAuthResponse c) (ensureAuthenticated_live rt c w Hlive)).
  unfold bind at 1, fetch. rewrite Hin, Hok. cbn [negb].
  unfold json. destruct (json_body r); reflexivity.
Qed.

Lemma delete_webhook_outcome_witness :
  fst (fst (dispatch sample_runtime "neutron_delete_webhook"
              [("webhookId", VStr "wh-1")] live_client
              (world_with [(NetReply no_content_response, Num.of_Z 1001)])))
  = Throw (JsError "Unexpected end of JSON input").
Proof.
  assert (L : session_live live_client
                (now (world_with [(NetReply no_content_response, Num.of_Z 1001)])))
    by (repeat split; reflexivity).
  rewrite (delete_webhook_outcome sample_runtime [("webhookId", VStr "wh-1")]
             live_client
             (world_with [(NetReply no_content_response, Num.of_Z 1001)])
             no_content_response (Num.of_Z 1001) [] L eq_refl eq_refl).
  reflexivity.
Defined.

(** What a successful [getClient] leaves behind. *)
Lemma getClient_ok_inv (p p' : process) (c : NeutronClient) :
  getClient p = (Ok c, p') ->
  _client p' = Some c /\ env p' = env p /\ outside p' = outside p.
Proof.
  unfold getClient. intros H.
  destruct (_client p) as [c0 |] eqn:Hc.
  - injection H as <- <-. auto.
  - destruct (NEUTRON_API_KEY (env p)) as [key |]; [| discriminate H].
    destruct (NEUTRON_API_SECRET (env p)) as [secret |]; [| discriminate H].
    destruct (negb (Js.truthy (VStr key)) || negb (Js.truthy (VStr secret)));
      [discriminate H |].
    injection H as <- <-. auto.
Qed.

(** X9. The client is a singleton: whatever [getClient] returns is stored,
    the environment and the world are left alone, and asking again returns
    the same client; a client that had to be created has no session and
    carries the key and the secret of the environment, both non-empty. *)
Theorem getClient_singleton (p p' : process) (c : NeutronClient) :
  getClient p = (Ok c, p') ->
  _client p' = Some c
  /\ env p' = env p
  /\ outside p' = outside p
  /\ getClient p' = (Ok c, p')
  /\ (_client p = None ->
      c = new_client (config c)
      /\ NEUTRON_API_KEY (env p) = Some (apiKey (config c))
      /\ NEUTRON_API_SECRET (env p) = Some (apiSecret (config c))
      /\ apiKey (config c) <> EmptyString
      /\ apiSecret (config c) <> EmptyString
      /\ apiUrl (config c) <> EmptyString).
Proof.
  intros H.
  destruct (getClient_ok_inv p p' c H) as (Hc' & Henv & Hout).
  split; [exact Hc' |]. split; [exact Henv |]. split; [exact Hout |].
  split; [unfold getClient; rewrite Hc'; reflexivity |].
  intros Hnone. unfold getClient in H. rewrite Hnone in H.
  destruct (NEUTRON_API_KEY (env p)) as [key |]; [| discriminate H].
  destruct (NEUTRON_API_SECRET (env p)) as [secret |]; [| discriminate H].
  destruct (Js.truthy (VStr key)) eqn:Hk; [| discriminate H].
  destruct (Js.truthy (VStr secret)) eqn:Hs; [| discriminate H].
  cbn [negb orb] in H. injection H as <- _.
  cbn [new_client config apiKey apiSecret apiUrl] in *.
  split; [reflexivity |]. split; [reflexivity |]. split; [reflexivity |].
  split; [intros E; rewrite E in Hk; discriminate Hk |].
  split; [intros E; rewrite E in Hs; discriminate Hs |].
  destruct (NEUTRON_API_URL (env p)) as [u |]; [| intros E; discriminate E].
  cbn [Js.truthy].
  destruct (String.eqb_spec u EmptyString) as [Hu | Hne]; cbn [negb];
    [intros E; discriminate E | exact Hne].
Qed.

Lemma getClient_singleton_witness :
  getClient configured_process
  = (Ok fresh_client,
     {| env := env configured_process; _client := Some fresh_client;
        outside := outside configured_process |})
  /\ getClient {| env := env configured_process; _client := Some fresh_client;
                  outside := outside configured_process |}
     = (Ok fresh_client,
        {| env := env configured_process; _client := Some fresh_client;
           outside := outside configured_process |}).
Proof.
  split; [reflexivity |].
  exact (proj1 (proj2 (proj2 (proj2
           (getClient_singleton configured_process
              {| env := env configured_process; _client := Some fresh_client;
                 outside := outside configured_process |}
              fresh_client eq_refl))))).
Defined.

(** X10. The client, with whatever session a tool call left in it, is what
    the next call gets: after a call that returned, [getClient] yields the
    client as [dispatch] left it, and the environment is unchanged. *)
Theorem call_tool_threads_client (rt : Runtime) (name : string)
    (arguments : option object) (p p' : process) (res : CallToolResult) :
  call_tool rt name arguments p = (Ok res, p') ->
  exists c0 c1 o,
    fst (getClient p) = Ok c0
    /\ dispatch rt name (match arguments with Some a => a | None => [] end)
         c0 (outside p) = (o, c1, outside p')
    /\ getClient p' = (Ok c1, p')
    /\ env p' = env p.
Proof.
  unfold call_tool. intros H.
  destruct (getClient p) as [[c0 | e] p0] eqn:Hg; [| discriminate H].
  destruct (getClient_ok_inv p p0 c0 Hg) as (_ & Henv & Hout).
  rewrite Hout in H.
  destruct (dispatch rt name _ c0 (outside p)) as [[o c1] w1] eqn:Hd.
  exists c0, c1, o.
  destruct o as [result | error]; injection H as _ <-;
    cbn [outside env _client getClient]; repeat split; try reflexivity;
    try exact Henv; exact Hd.
Qed.

Lemma call_tool_threads_client_witness :
  getClient (snd (call_tool sample_runtime "neutron_get_rate" None
                    starting_process))
  = (Ok signed_in_client,
     snd (call_tool sample_runtime "neutron_get_rate" None starting_process)).
Proof.
  destruct (call_tool_threads_client sample_runtime "neutron_get_rate" None
              starting_process
              (snd (call_tool sample_runtime "neutron_get_rate" None
                      starting_process))
              {| content_text := VStr "<json>"; isError := false |} eq_refl)
    as (c0 & c1 & o & H0 & Hd & Hg & _).
  vm_compute in H0. injection H0 as <-.
  vm_compute in Hd. injection Hd as _ Hc. subst c1. exact Hg.
Defined.

(** ** Which tools reach the network *)

Lemma keeps_log_ret {A : Type} (a : A) : keeps_log (ret a).
Proof. intros c w. apply Nat.le_refl. Qed.

Lemma keeps_log_throw {A : Type} (e : exn) : keeps_log (@throw A e).
Proof. intros c w. apply Nat.le_refl. Qed.

Lemma keeps_log_this : keeps_log this.
Proof. intros c w. apply Nat.le_refl. Qed.

Lemma keeps_log_member (rt : Runtime) (v : value) (k : string) :
  keeps_log (member (rt:=rt) v k).
Proof.
  intros c w. unfold member. destruct (Js.get v k); apply Nat.le_refl.
Qed.

Lemma keeps_log_bind {A B : Type} (m : M A) (k : A -> M B) :
  keeps_log m -> (forall a, keeps_log (k a)) -> keeps_log (bind m k).
Proof.
  intros Hm Hk c w. unfold bind.
  specialize (Hm c w).
  destruct (m c w) as [[[a | e] c1] w1]; cbn [snd] in *.
  - specialize (Hk a c1 w1). lia.
  - exact Hm.
Qed.

Lemma sends_keeps_log {A : Type} (m : M A) : sends m -> keeps_log m.
Proof. intros H c w. specialize (H c w). lia. Qed.

Lemma sends_bind_l {A B : Type} (m : M A) (k : A -> M B) :
  sends m -> (forall a, keeps_log (k a)) -> sends (bind m k).
Proof.
  intros Hm Hk c w. unfold bind.
  specialize (Hm c w).
  destruct (m c w) as [[[a | e] c1] w1]; cbn [snd] in *.
  - specialize (Hk a c1 w1). lia.
  - exact Hm.
Qed.

Lemma sends_bind_r {A B : Type} (m : M A) (k : A -> M B) :
  keeps_log m -> sends_before_throwing m -> (forall a, sends (k a)) ->
  sends (bind m k).
Proof.
  intros Hm Ht Hk c w. unfold bind.
  specialize (Hm c w). specialize (Ht c w).
  destruct (m c w) as [[[a | e] c1] w1]; cbn [fst snd] in *.
  - specialize (Hk a c1 w1). lia.
  - exact Ht.
Qed.

Lemma ensureAuthenticated_keeps_log (rt : Runtime) :
  keeps_log (ensureAuthenticated rt).
Proof.
  intros c w.
  destruct (ensureAuthenticated_sent rt c w) as [[_ H] | (_ & H & _)];
    rewrite H; [apply Nat.le_refl |].
  rewrite length_app. simpl. lia.
Qed.

Lemma ensureAuthenticated_sends_before_throwing (rt : Runtime) :
  sends_before_throwing (ensureAuthenticated rt).
Proof.
  intros c w.
  destruct (ensureAuthenticated_sent rt c w) as [[_ H] | (_ & H & _)].
  - rewrite H. exact I.
  - destruct (fst (fst (ensureAuthenticated rt c w))); [exact I |].
    rewrite H, length_app. simpl. lia.
Qed.

Lemma request_sends (rt : Runtime) (method path : string) (body : value) :
  sends (request rt method path body).
Proof.
  intros c w.
  pose proof (ensureAuthenticated_keeps_log rt c w) as Hk.
  pose proof (ensureAuthenticated_sends_before_throwing rt c w) as Ht.
  destruct (ensureAuthenticated rt c w) as [[[v | e] c1] w1] eqn:E;
    cbn [fst snd] in *.
  - destruct (request_after_auth_sends rt method path body c c1 w w1 v E)
      as (o & w2 & -> & Hs).
    cbn [snd]. rewrite Hs, length_app. simpl. lia.
  - rewrite (request_auth_failure rt method path body c c1 w w1 e E).
    exact Ht.
Qed.

Lemma authenticate_sends (rt : Runtime) : sends (authenticate rt).
Proof.
  intros c w. rewrite authenticate_unfold.
  destruct (ensureAuthenticated_sent rt (cleared c) w) as [[Hl _] | (_ & H & _)].
  - exfalso. exact (cleared_not_live c (now w) Hl).
  - rewrite H, length_app. simpl. lia.
Qed.

(** A tool that sends something never ends where it started. *)
Lemma sends_moves {A : Type} (m : M A) (c : NeutronClient) (w : world)
    (o : outcome A) :
  sends m -> m c w <> (o, c, w).
Proof.
  intros H E. specialize (H c w). rewrite E in H. cbn [snd] in H. lia.
Qed.

Lemma this_sends_before_throwing : sends_before_throwing this.
Proof. intros c w. exact I. Qed.

Ltac keeps_tac :=
  lazymatch goal with
  | |- keeps_log (ret _) => apply keeps_log_ret
  | |- keeps_log (throw _) => apply keeps_log_throw
  | |- keeps_log this => apply keeps_log_this
  | |- keeps_log (member _ _) => apply keeps_log_member
  | |- keeps_log (request _ _ _ _) => apply sends_keeps_log; apply request_sends
  | |- keeps_log (confirmTransaction _ _) =>
      apply sends_keeps_log; apply request_sends
  | |- keeps_log (bind _ _) =>
      apply keeps_log_bind; [keeps_tac | intros ?; keeps_tac]
  end.

Ltac sends_tac :=
  lazymatch goal with
  | |- sends (request _ _ _ _) => apply request_sends
  | |- sends (bind (request _ _ _ _) _) =>
      apply sends_bind_l; [apply request_sends | intros ?; keeps_tac]
  | |- sends (bind (authenticate _) _) =>
      apply sends_bind_l; [apply authenticate_sends | intros ?; keeps_tac]
  | |- sends (bind (ensureAuthenticated _) _) =>
      apply sends_bind_r;
      [apply ensureAuthenticated_keeps_log
      | apply ensureAuthenticated_sends_before_throwing
      | intros ?; sends_tac]
  | |- sends (bind this _) =>
      apply sends_bind_r;
      [apply keeps_log_this | apply this_sends_before_throwing
      | intros ?; sends_tac]
  | |- sends (bind (bind _ _) _) =>
      apply sends_bind_l; [sends_tac | intros ?; keeps_tac]
  end.

(** Every catalogued tool other than the Lightning shortcut sends a
    request. *)
Lemma catalogued_tool_sends (rt : Runtime) (name : string) (args : object) :
  In name tool_names -> name <> "neutron_create_lightning_invoice" ->
  sends (dispatch rt name args).
Proof.
  intros Hin Hne.
  unfold tool_names in Hin. cbn [In] in Hin.
  repeat (destruct Hin as [<- | Hin]; [| ]); try contradiction;
    try (exfalso; apply Hne; reflexivity).
  all: cbv beta iota delta [dispatch String.eqb Ascii.eqb Bool.eqb];
    cbv beta iota.
  all: unfold getAccount, getWallets, getWallet, createTransaction,
              create_transaction, confirmTransaction, getTransaction,
              listTransactions, decodeInvoice, resolveLightningAddress,
              resolveLnurl, getBtcReceiveAddress, getUsdtReceiveAddress,
              createWebhook, listWebhooks, updateWebhook, deleteWebhook,
              getRate, getFiatInstitutions.
  all: unfold createTransaction.
  all: sends_tac.
Qed.

(** The Lightning shortcut either stops at its amount check or sends a
    request. *)
Lemma lightning_invoice_moves (rt : Runtime) (args : object)
    (c : NeutronClient) (w : world) :
  create_lightning_invoice rt args c w
  <> (Throw (JsError "Unknown tool: neutron_create_lightning_invoice"), c, w).
Proof.
  unfold create_lightning_invoice, lightning_btc_amount.
  destruct (Js.defined (arg args "amountSats")).
  - unfold bind at 1, ret at 1. cbv beta iota.
    apply sends_moves. unfold createTransaction. sends_tac.
  - destruct (Js.defined (arg args "amountBtc")).
    + unfold bind at 1, ret at 1. cbv beta iota.
      apply sends_moves. unfold createTransaction. sends_tac.
    + unfold bind at 1, throw at 1. cbv beta iota.
      intros E. discriminate E.
Qed.

(** A name outside the catalogue falls through the [switch]. *)
Lemma dispatch_unknown (rt : Runtime) (name : string) (args : object) :
  ~ In name tool_names ->
  dispatch rt name args = throw (JsError ("Unknown tool: " ++ name)).
Proof.
  intros Hout. unfold dispatch.
  repeat match goal with
         | |- context [String.eqb name ?t] =>
             destruct (String.eqb_spec name t) as [E | _];
             [exfalso; apply Hout; rewrite E; unfold tool_names;
              repeat first [left; reflexivity | right] |]
         end.
  reflexivity.
Qed.

(** X11. The catalogue and the [switch] agree: a tool call ends as the
    unknown-tool error, with nothing sent and the client untouched,
    exactly when its name is not in the catalogue. *)
Theorem unknown_tool_iff (rt : Runtime) (name : string) (args : object)
    (c : NeutronClient) (w : world) :
  dispatch rt name args c w = (Throw (JsError ("Unknown tool: " ++ name)), c, w)
  <-> ~ In name tool_names.
Proof.
  split.
  - intros E Hin.
    destruct (String.eqb_spec name "neutron_create_lightning_invoice") as [-> | Hne].
    + exact (lightning_invoice_moves rt args c w E).
    + exact (sends_moves (dispatch rt name args) c w _
               (catalogued_tool_sends rt name args Hin Hne) E).
  - intros Hout. rewrite (dispatch_unknown rt name args Hout). reflexivity.
Qed.

(** X12. The one precondition checked locally.  A Lightning invoice
    asked for without [amountSats] and without [amountBtc] sends nothing
    and leaves the environment alone.  When [getClient] gives a client,
    the call returns the failure result
    "Error: Provide either amountSats or amountBtc" and the process is
    as [getClient] left it: unchanged when it already held a client,
    holding the client just created otherwise.  When [getClient] throws
    (no credentials), the call throws the same error. *)
Theorem lightning_invoice_requires_amount (rt : Runtime) (args : object)
    (p : process) :
  arg args "amountSats" = VUndefined ->
  arg args "amountBtc" = VUndefined ->
  call_tool rt "neutron_create_lightning_invoice" (Some args) p
  = match getClient p with
    | (Ok _, p') =>
        (Ok {| content_text :=
                 VStr "Error: Provide either amountSats or amountBtc";
               isError := true |},
         p')
    | (Throw e, p') => (Throw e, p')
    end
  /\ outside (snd (call_tool rt "neutron_create_lightning_invoice"
                     (Some args) p))
     = outside p
  /\ env (snd (call_tool rt "neutron_create_lightning_invoice" (Some args) p))
     = env p
  /\ (_client p <> None ->
      snd (call_tool rt "neutron_create_lightning_invoice" (Some args) p) = p).
Proof.
  intros Hs Hb.
  assert (Hcall :
    call_tool rt "neutron_create_lightning_invoice" (Some args) p
    = match getClient p with
      | (Ok _, p') =>
          (Ok {| content_text :=
                   VStr "Error: Provide either amountSats or amountBtc";
                 isError := true |},
           p')
      | (Throw e, p') => (Throw e, p')
      end).
  { unfold call_tool. rewrite dispatch_create_lightning_invoice.
    destruct (getClient p) as [[client | e] p'] eqn:Hg; [| reflexivity].
    unfold create_lightning_invoice, lightning_btc_amount. rewrite Hs, Hb.
    cbn [Js.defined]. unfold bind, throw. cbn [error_text].
    destruct (getClient_ok_inv p p' client Hg) as (Hc & _ & _).
    destruct p' as [e' cl o']. cbn [_client env outside] in *. subst cl.
    reflexivity. }
  split; [exact Hcall |]. rewrite Hcall.
  unfold getClient.
  destruct (_client p) as [client |] eqn:Hc.
  - cbn [snd]. repeat split; reflexivity.
  - destruct (NEUTRON_API_KEY (env p)) as [key |];
      [| cbn [snd]; repeat split; try reflexivity;
         intros H; exfalso; apply H; reflexivity].
    destruct (NEUTRON_API_SECRET (env p)) as [secret |];
      [| cbn [snd]; repeat split; try reflexivity;
         intros H; exfalso; apply H; reflexivity].
    destruct (negb (Js.truthy (VStr key)) || negb (Js.truthy (VStr secret)));
      cbn [snd outside env]; repeat split; try reflexivity;
      intros H; exfalso; apply H; reflexivity.
Qed.

Lemma lightning_invoice_requires_amount_witness :
  call_tool sample_runtime "neutron_create_lightning_invoice"
    (Some [("memo", VStr "coffee")]) configured_process
  = (Ok {| content_text := VStr "Error: Provide either amountSats or amountBtc";
           isError := true |},
     {| env := env configured_process; _client := Some fresh_client;
        outside := outside configured_process |}).
Proof.
  exact (proj1 (lightning_invoice_requires_amount sample_runtime
                  [("memo", VStr "coffee")] configured_process
                  eq_refl eq_refl)).
Defined.

(** The same call in a process that already holds a client changes
    nothing, and without credentials it throws. *)
Example lightning_invoice_without_amount_running :
  call_tool sample_runtime "neutron_create_lightning_invoice"
    (Some [("memo", VStr "coffee")]) running_process
  = (Ok {| content_text := VStr "Error: Provide either amountSats or amountBtc";
           isError := true |},
     running_process).
Proof. reflexivity. Qed.

Example lightning_invoice_without_amount_or_credentials :
  exists e,
    call_tool sample_runtime "neutron_create_lightning_invoice"
      (Some [("memo", VStr "coffee")]) process_without_credentials
    = (Throw e, process_without_credentials).
Proof. eexists. reflexivity. Qed.

(** X13. The memo of a Lightning invoice never leaves the process: two
    calls that differ only in [memo] send the same requests and leave the
    same client and world; the memo only comes back in the result. *)
Theorem memo_is_not_sent (rt : Runtime) (args args' : object)
    (c : NeutronClient) (w : world) :
  arg args' "amountSats" = arg args "amountSats" ->
  arg args' "amountBtc" = arg args "amountBtc" ->
  arg args' "extRefId" = arg args "extRefId" ->
  snd (create_lightning_invoice rt args' c w)
    = snd (create_lightning_invoice rt args c w)
  /\ snd (fst (create_lightning_invoice rt args' c w))
     = snd (fst (create_lightning_invoice rt args c w))
  /\ match fst (fst (create_lightning_invoice rt args c w)) with
     | Ok (VObj result) =>
         Js.lookup "memo" result = Some (Js.or (arg args "memo") VNull)
     | Ok _ => False
     | Throw e => fst (fst (create_lightning_invoice rt args' c w)) = Throw e
     end.
Proof.
  intros E1 E2 E3.
  unfold create_lightning_invoice. rewrite E1, E2, E3.
  unfold bind.
  destruct (lightning_btc_amount rt (arg args "amountSats") (arg args "amountBtc") c w)
    as [[[btc | e] c1] w1]; [| repeat split].
  destruct (createTransaction rt _ c1 w1) as [[[txn | e] c2] w2]; [| repeat split].
  destruct (member txn "txnId" c2 w2) as [[[txnId | e] c3] w3]; [| repeat split].
  destruct (confirmTransaction rt txnId c3 w3) as [[[confirmed | e] c4] w4];
    [| repeat split].
  destruct (member confirmed "sourceReq" c4 w4) as [[[sourceReq | e] c5] w5];
    repeat split.
Qed.

Lemma memo_is_not_sent_witness :
  snd (create_lightning_invoice sample_runtime
         [("amountSats", VNum (Num.of_Z 5000)); ("memo", VStr "coffee")]
         live_client
         (world_with [(NetReply created_response, Num.of_Z 1001);
                      (NetReply confirmed_response, Num.of_Z 1002)]))
  = snd (create_lightning_invoice sample_runtime
           [("amountSats", VNum (Num.of_Z 5000))]
           live_client
           (world_with [(NetReply created_response, Num.of_Z 1001);
                        (NetReply confirmed_response, Num.of_Z 1002)])).
Proof.
  exact (proj1 (memo_is_not_sent sample_runtime
                  [("amountSats", VNum (Num.of_Z 5000))]
                  [("amountSats", VNum (Num.of_Z 5000)); ("memo", VStr "coffee")]
                  live_client
                  (world_with [(NetReply created_response, Num.of_Z 1001);
                               (NetReply confirmed_response, Num.of_Z 1002)])
                  eq_refl eq_refl eq_refl)).
Defined.

(* ===================================================================== *)
(** * Further properties of the transaction normalizer *)
(* ===================================================================== *)

(** X14. The destination details hold exactly the rail-specific fields of
    the intent that are truthy, each as supplied; no other field of the
    intent gets into them. *)
Theorem destReqDetails_copies_truthy_fields (a : object) (k : string) :
  Js.lookup k (build_destReqDetails a)
  = if existsb (String.eqb k) detail_keys && Js.truthy (arg a k)
    then Some (arg a k) else None.
Proof.
  unfold build_destReqDetails, copy_if_truthy, detail_keys.
  cbn [existsb].
  destruct (String.eqb_spec k "paymentRequest") as [-> | N1];
    [| destruct (String.eqb_spec k "lnurl") as [-> | N2];
       [| destruct (String.eqb_spec k "address") as [-> | N3];
          [| destruct (String.eqb_spec k "bankAcctNum") as [-> | N4];
             [| destruct (String.eqb_spec k "institutionCode") as [-> | N5]]]]].
  all: cbn [orb andb].
  all: destruct (Js.truthy (arg a "paymentRequest"));
    destruct (Js.truthy (arg a "lnurl"));
    destruct (Js.truthy (arg a "address"));
    destruct (Js.truthy (arg a "bankAcctNum"));
    destruct (Js.truthy (arg a "institutionCode")).
  all: cbn [Js.set String.eqb Ascii.eqb Bool.eqb Js.lookup]; try reflexivity.
  all: repeat match goal with
         | |- context [String.eqb ?x ?t] =>
             destruct (String.eqb_spec x t); [congruence |]
         end; reflexivity.
Qed.

(** X15. Each side's [amtRequested] is present exactly when that side's
    amount is defined, whatever the other side has: an intent with both
    amounts gets both through, and one with none gets neither. *)
Theorem amounts_pass_through_independently (a : object) :
  Js.path ["sourceReq"; "amtRequested"] (transaction_body a)
    = (if Js.defined (arg a "sourceAmount")
       then Some (arg a "sourceAmount") else None)
  /\ Js.path ["destReq"; "amtRequested"] (transaction_body a)
     = (if Js.defined (arg a "destAmount")
        then Some (arg a "destAmount") else None).
Proof. split; split_body a; reflexivity. Qed.

(** X16. The shape of the request: its keys are [extRefId], [sourceReq],
    [destReq], and [sourceOfFunds] last when it is derived; currencies and
    methods are passed as supplied, the source details are always empty
    and the destination details are the copied rail fields. *)
Theorem transaction_body_shape (a : object) :
  map fst (transaction_body a)
    = (["extRefId"; "sourceReq"; "destReq"]
       ++ (if Js.truthy (arg a "bankAcctNum") then ["sourceOfFunds"] else []))%list
  /\ Js.path ["sourceReq"; "ccy"] (transaction_body a) = Some (arg a "sourceCcy")
  /\ Js.path ["sourceReq"; "method"] (transaction_body a)
     = Some (arg a "sourceMethod")
  /\ Js.path ["sourceReq"; "reqDetails"] (transaction_body a) = Some (VObj [])
  /\ Js.path ["destReq"; "ccy"] (transaction_body a) = Some (arg a "destCcy")
  /\ Js.path ["destReq"; "method"] (transaction_body a)
     = Some (arg a "destMethod")
  /\ Js.path ["destReq"; "reqDetails"] (transaction_body a)
     = Some (VObj (build_destReqDetails a)).
Proof.
  rewrite <- truthy_build_sourceOfFunds.
  split_body a; repeat split; reflexivity.
Qed.

(* ===================================================================== *)
(** * Properties of the other tools *)
(* ===================================================================== *)

(** The pairs appended to the query: the filters that are neither
    undefined nor null, as strings. *)
Lemma query_pairs (rt : Runtime) (params : object) :
  flat_map (fun kv => match snd kv with
                      | VUndefined | VNull => []
                      | v => [(fst kv, Js.to_string rt v)]
                      end) params
  = map (fun kv => (fst kv, Js.to_string rt (snd kv)))
      (filter (fun kv => negb (Js.nullish (snd kv))) params).
Proof.
  induction params as [| [k v] rest IH]; [reflexivity |].
  cbn [flat_map filter snd fst]. rewrite IH.
  destruct v; reflexivity.
Qed.

(** X17. Listing transactions: the query is made of the filters that are
    neither undefined nor null, in order and as strings (so a limit or an
    offset of 0 is sent); the path has a question mark only when the
    query is not empty. *)
Theorem list_transactions_query (rt : Runtime) (params : object) :
  listTransactions rt params
  = request rt "GET"
      ("/api/v2/transaction"
       ++ (if String.eqb
                (url_search_params_to_string rt
                   (map (fun kv => (fst kv, Js.to_string rt (snd kv)))
                      (filter (fun kv => negb (Js.nullish (snd kv))) params)))
                EmptyString
           then EmptyString
           else "?" ++ url_search_params_to_string rt
                         (map (fun kv => (fst kv, Js.to_string rt (snd kv)))
                            (filter (fun kv => negb (Js.nullish (snd kv))) params))))
      VUndefined.
Proof.
  unfold listTransactions. rewrite query_pairs. cbn [Js.truthy].
  destruct (String.eqb _ EmptyString); reflexivity.
Qed.

(** A truthy value is defined. *)
Lemma truthy_defined (v : value) : Js.truthy v = true -> Js.defined v = true.
Proof. destruct v; intros H; try reflexivity; discriminate H. Qed.

(** X18. The stablecoin address is asked for the chain given, and for TRON
    when the chain is missing or empty. *)
Theorem usdt_address_chain (rt : Runtime) (args : object) :
  dispatch rt "neutron_get_usdt_address" args
  = request rt "GET"
      ("/api/v2/account/stablecoin-onchain-address?walletCcy=USDT&chainId="
       ++ (if Js.truthy (arg args "chain")
           then Js.to_string rt (arg args "chain") else "TRON"))
      VUndefined.
Proof.
  change (dispatch rt "neutron_get_usdt_address" args)
    with (getUsdtReceiveAddress rt (Js.or (arg args "chain") (VStr "TRON"))).
  unfold getUsdtReceiveAddress, Js.or.
  destruct (Js.truthy (arg args "chain")) eqn:E.
  - rewrite (truthy_defined _ E). reflexivity.
  - reflexivity.
Qed.

(** Removing a key from an object. *)
Lemma lookup_remove (k k' : string) (o : object) :
  Js.lookup k (Js.remove k' o)
  = if String.eqb k k' then None else Js.lookup k o.
Proof.
  induction o as [| [k0 v0] rest IH]; cbn [Js.remove Js.lookup].
  - destruct (String.eqb k k'); reflexivity.
  - destruct (String.eqb_spec k' k0) as [<- | Hne].
    + rewrite IH. destruct (String.eqb_spec k k'); reflexivity.
    + cbn [Js.lookup]. rewrite IH.
      destruct (String.eqb_spec k k0) as [-> | Hne2]; [| reflexivity].
      destruct (String.eqb_spec k0 k'); [congruence | reflexivity].
Qed.

(** X19. Updating a webhook: the webhook id goes into the path and is
    taken out of the body; every other argument is sent in the body as
    supplied. *)
Theorem update_webhook_body (rt : Runtime) (args : object) :
  exists rest,
    dispatch rt "neutron_update_webhook" args
    = request rt "PUT"
        ("/api/v2/webhook/" ++ Js.to_string rt (arg args "webhookId"))
        (VObj rest)
    /\ forall k,
         Js.lookup k rest
         = if String.eqb k "webhookId" then None else Js.lookup k args.
Proof.
  exists (Js.remove "webhookId" args). split; [reflexivity |].
  intros k. apply lookup_remove.
Qed.

(* ===================================================================== *)
(** * Properties of the lending tools *)
(* ===================================================================== *)

(** What one call of [lendingRequest] does when the service replies. *)
Lemma lendingRequest_reply (rt : Runtime) (api method path : string)
    (body : value) (c : NeutronClient) (w : world)
    (r : http_response) (t : number) (rest : list (net_event * number)) :
  inbox w = (NetReply r, t) :: rest ->
  lendingRequest rt api method path body c w
  = (match json_body r with
     | inl msg => Throw (JsError msg)
     | inr data =>
         if ok r then Ok data
         else match Js.get data "error" with
              | Some e =>
                  Throw (JsError
                           (Js.to_string rt
                              (Js.or e (VStr ("Lending API error "
                                              ++ status_string r)))))
              | None =>
                  Throw (JsError ("Cannot read properties of "
                                  ++ Js.to_string rt data
                                  ++ " (reading 'error')"))
              end
     end,
     c, after_fetch w (lending_fetch_request rt api method path body) t rest).
Proof.
  intros Hin. unfold lendingRequest. unfold bind at 1. unfold fetch.
  rewrite Hin. unfold bind at 1, json.
  destruct (json_body r) as [msg | data]; [reflexivity |].
  unfold ret at 1. destruct (ok r); cbn [negb]; [reflexivity |].
  unfold bind, member. destruct (Js.get data "error"); reflexivity.
Qed.

(** Every call of [lendingRequest] sends its one request and leaves the
    client alone. *)
Lemma lendingRequest_sent (rt : Runtime) (api method path : string)
    (body : value) (c : NeutronClient) (w : world) :
  snd (fst (lendingRequest rt api method path body c w)) = c
  /\ sent (snd (lendingRequest rt api method path body c w))
     = (sent w ++ [lending_fetch_request rt api method path body])%list.
Proof.
  destruct (inbox w) as [| [[r | msg] t] rest] eqn:Hin.
  - unfold lendingRequest, bind, fetch. cbv beta. rewrite Hin.
    split; reflexivity.
  - rewrite (lendingRequest_reply rt api method path body c w r t rest Hin).
    split; reflexivity.
  - unfold lendingRequest, bind, fetch. cbv beta. rewrite Hin.
    split; reflexivity.
Qed.

(** [lendingRequest] returns only what a successful reply carried. *)
Lemma lendingRequest_ok_inv (rt : Runtime) (api method path : string)
    (body : value) (c c' : NeutronClient) (w w' : world) (v : value) :
  lendingRequest rt api method path body c w = (Ok v, c', w') ->
  exists r t rest,
    inbox w = (NetReply r, t) :: rest
    /\ ok r = true /\ json_body r = inr v /\ c' = c
    /\ w' = after_fetch w (lending_fetch_request rt api method path body) t rest.
Proof.
  intros E.
  destruct (inbox w) as [| [[r | msg] t] rest] eqn:Hin.
  - unfold lendingRequest, bind, fetch in E. cbv beta in E. rewrite Hin in E.
    discriminate E.
  - rewrite (lendingRequest_reply rt api method path body c w r t rest Hin) in E.
    exists r, t, rest.
    destruct (json_body r) as [msg | data]; [discriminate E |].
    destruct (ok r); [| destruct (Js.get data "error"); discriminate E].
    injection E as Ev Ec Ew. subst. repeat split; reflexivity.
  - unfold lendingRequest, bind, fetch in E. cbv beta in E. rewrite Hin in E.
    discriminate E.
Qed.

(** X20. When the lending service answers with a status outside 200-299,
    [lendingRequest] fails.  The body is parsed before the status is
    looked at: a body that is not JSON gives the parser's error and the
    status is lost.  A body that is the JSON document null gives the
    failure of reading [error] from it.  Otherwise the message is the
    body's [error] field when that is truthy and
    "Lending API error <status>" when it is not; a [message] field of the
    body is never used. *)
Theorem lending_failure_message (rt : Runtime) (api method path : string)
    (body : value) (c : NeutronClient) (w : world)
    (r : http_response) (t : number) (rest : list (net_event * number)) :
  inbox w = (NetReply r, t) :: rest ->
  ok r = false ->
  fst (fst (lendingRequest rt api method path body c w))
  = match json_body r with
    | inl msg => Throw (JsError msg)
    | inr data =>
        if Js.nullish data
        then Throw (JsError ("Cannot read properties of "
                             ++ Js.to_string rt data ++ " (reading 'error')"))
        else Throw (JsError
                      (Js.to_string rt
                         (if Js.truthy (Js.get_opt data "error")
                          then Js.get_opt data "error"
                          else VStr ("Lending API error " ++ status_string r))))
    end.
Proof.
  intros Hin Hok.
  rewrite (lendingRequest_reply rt api method path body c w r t rest Hin).
  cbn [fst]. destruct (json_body r) as [msg | data]; [reflexivity |].
  rewrite Hok. unfold Js.get_opt, Js.or.
  destruct data; cbn [Js.get Js.nullish]; reflexivity.
Qed.

Lemma lending_failure_message_witness :
  fst (fst (lendingRequest sample_runtime (lending_api None)
              "GET" "/api/loans/L1" VUndefined fresh_client
              (world_with [(NetReply rejected_response, Num.of_Z 1001)])))
  = Throw (JsError "E").
Proof.
  exact (lending_failure_message sample_runtime (lending_api None)
           "GET" "/api/loans/L1" VUndefined fresh_client
           (world_with [(NetReply rejected_response, Num.of_Z 1001)])
           rejected_response (Num.of_Z 1001) [] eq_refl eq_refl).
Defined.

(** A failure of the lending service with an HTML body, and one with a
    null body. *)
Example lending_failure_html_body :
  fst (fst (lendingRequest sample_runtime (lending_api None)
              "GET" "/api/loans/L1" VUndefined fresh_client
              (world_with [(NetReply lending_crash_response, Num.of_Z 1001)])))
  = Throw (JsError "Unexpected token < in JSON at position 0").
Proof. reflexivity. Qed.

Example lending_failure_null_body :
  fst (fst (lendingRequest sample_runtime (lending_api None)
              "GET" "/api/loans/L1" VUndefined fresh_client
              (world_with [(NetReply null_body_response, Num.of_Z 1001)])))
  = Throw (JsError "Cannot read properties of null (reading 'error')").
Proof. reflexivity. Qed.

(** X21. The rollover tool is gated on [acceptTerms]: when the argument
    is falsy (absent, false, 0, the empty string, null) the tool throws
    and nothing is sent; when it is truthy exactly one request goes out,
    a POST without a body to /api/loans/<loanId>/rollover. *)
Theorem rollover_requires_accepted_terms (rt : Runtime) (api : string)
    (args : object) (c : NeutronClient) (w : world) :
  if Js.truthy (arg args "acceptTerms")
  then sent (snd (lend_rollover rt api args c w))
       = (sent w
          ++ [{| req_method := "POST";
                 req_url := api ++ "/api/loans/"
                            ++ Js.to_string rt (arg args "loanId")
                            ++ "/rollover";
                 req_headers := [("Content-Type", "application/json")];
                 req_body := VUndefined |}])%list
  else snd (lend_rollover rt api args c w) = w
       /\ exists msg, fst (fst (lend_rollover rt api args c w))
                      = Throw (JsError msg).
Proof.
  unfold lend_rollover.
  destruct (Js.truthy (arg args "acceptTerms")); cbn [negb].
  - apply (lendingRequest_sent rt api "POST" _ VUndefined c w).
  - split; [reflexivity | eexists; reflexivity].
Qed.

(** X22. The settlement tool releases collateral only for a repaid loan
    with a contract: whenever a run of the tool sends a POST, the first
    two replies it consumed were successful, the first one's body had
    [status] equal to the string "repaid", the second one's body had a
    truthy [contractId], and the POST is the one to
    /api/dlc/contracts/<contractId>/settle, sent after the two GETs. *)
Theorem settlement_needs_repaid_loan_and_contract (rt : Runtime) (api : string)
    (args : object) (c : NeutronClient) (w : world)
    (log : list http_request) (rq : http_request) :
  sent (snd (lend_settle rt api args c w)) = (sent w ++ log)%list ->
  In rq log ->
  req_method rq = "POST" ->
  exists r1 t1 r2 t2 rest loan dlc,
    inbox w = (NetReply r1, t1) :: (NetReply r2, t2) :: rest
    /\ ok r1 = true /\ json_body r1 = inr loan
    /\ Js.get_opt loan "status" = VStr "repaid"
    /\ ok r2 = true /\ json_body r2 = inr dlc
    /\ Js.truthy (Js.get_opt dlc "contractId") = true
    /\ log = [lending_fetch_request rt api "GET"
                ("/api/loans/" ++ Js.to_string rt (arg args "loanId"))
                VUndefined;
              lending_fetch_request rt api "GET"
                ("/api/dlc/contracts/by-loan/"
                 ++ Js.to_string rt (arg args "loanId"))
                VUndefined;
              rq]
    /\ rq = lending_fetch_request rt api "POST"
              ("/api/dlc/contracts/"
               ++ Js.to_string rt (Js.get_opt dlc "contractId") ++ "/settle")
              VUndefined.
Proof.
  intros Hsent Hin Hpost.
  unfold lend_settle in Hsent. unfold bind at 1 in Hsent.
  pose proof (lendingRequest_sent rt api "GET"
                ("/api/loans/" ++ Js.to_string rt (arg args "loanId"))
                VUndefined c w) as [_ S1].
  destruct (lendingRequest rt api "GET"
              ("/api/loans/" ++ Js.to_string rt (arg args "loanId"))
              VUndefined c w) as [[o1 c1] w1] eqn:E1.
  cbn [fst snd] in S1.
  assert (Hget : forall l, In rq l ->
                 Forall (fun q => req_method q = "GET") l -> False).
  { intros l Hl Hall. rewrite Forall_forall in Hall.
    specialize (Hall rq Hl). rewrite Hpost in Hall. discriminate Hall. }
  destruct o1 as [loan | e1].
  2:{ unfold throw in Hsent; cbv beta iota zeta in Hsent; cbn [snd] in Hsent. rewrite S1 in Hsent.
      apply app_inv_head in Hsent. subst log.
      exfalso. apply (Hget _ Hin). repeat constructor. }
  cbv beta iota zeta in Hsent.
  apply lendingRequest_ok_inv in E1.
  destruct E1 as (r1 & t1 & rest1 & Hin1 & Hok1 & Hb1 & -> & Hw1).
  unfold bind at 1, member in Hsent.
  destruct (Js.get loan "status") as [st |] eqn:Est.
  2:{ unfold throw in Hsent; cbv beta iota zeta in Hsent; cbn [snd] in Hsent. rewrite S1 in Hsent.
      apply app_inv_head in Hsent. subst log.
      exfalso. apply (Hget _ Hin). repeat constructor. }
  unfold ret at 1 in Hsent. cbv beta iota zeta in Hsent.
  destruct (differs_from_string st "repaid") eqn:Ediff.
  { unfold throw in Hsent; cbv beta iota zeta in Hsent; cbn [snd] in Hsent. rewrite S1 in Hsent.
    apply app_inv_head in Hsent. subst log.
    exfalso. apply (Hget _ Hin). repeat constructor. }
  assert (Hst : st = VStr "repaid").
  { destruct st; try discriminate Ediff. cbn [differs_from_string] in Ediff.
    destruct (String.eqb_spec s "repaid"); [subst; reflexivity |
                                              discriminate Ediff]. }
  subst st.
  unfold bind at 1 in Hsent.
  pose proof (lendingRequest_sent rt api "GET"
                ("/api/dlc/contracts/by-loan/"
                 ++ Js.to_string rt (arg args "loanId"))
                VUndefined c w1) as [_ S2].
  destruct (lendingRequest rt api "GET"
              ("/api/dlc/contracts/by-loan/"
               ++ Js.to_string rt (arg args "loanId"))
              VUndefined c w1) as [[o2 c2] w2] eqn:E2.
  cbn [fst snd] in S2. rewrite S1, <- app_assoc in S2. cbn [app] in S2.
  destruct o2 as [dlc | e2].
  2:{ unfold throw in Hsent; cbv beta iota zeta in Hsent; cbn [snd] in Hsent. rewrite S2 in Hsent.
      apply app_inv_head in Hsent. subst log.
      exfalso. apply (Hget _ Hin). repeat constructor. }
  cbv beta iota zeta in Hsent.
  apply lendingRequest_ok_inv in E2.
  destruct E2 as (r2 & t2 & rest2 & Hin2 & Hok2 & Hb2 & -> & Hw2).
  destruct (negb (Js.truthy dlc)
            || negb (Js.truthy (Js.get_opt dlc "contractId"))) eqn:Eguard.
  { unfold throw in Hsent; cbv beta iota zeta in Hsent; cbn [snd] in Hsent. rewrite S2 in Hsent.
    apply app_inv_head in Hsent. subst log.
    exfalso. apply (Hget _ Hin). repeat constructor. }
  apply orb_false_elim in Eguard. destruct Eguard as [_ Eid].
  apply negb_false_iff in Eid.
  pose proof (lendingRequest_sent rt api "POST"
                ("/api/dlc/contracts/"
                 ++ Js.to_string rt (Js.get_opt dlc "contractId") ++ "/settle")
                VUndefined c w2) as [_ S3].
  assert (Hfin : (sent w ++ log
                 = sent w ++
                   [lending_fetch_request rt api "GET"
                      ("/api/loans/" ++ Js.to_string rt (arg args "loanId"))
                      VUndefined;
                    lending_fetch_request rt api "GET"
                      ("/api/dlc/contracts/by-loan/"
                       ++ Js.to_string rt (arg args "loanId"))
                      VUndefined;
                    lending_fetch_request rt api "POST"
                      ("/api/dlc/contracts/"
                       ++ Js.to_string rt (Js.get_opt dlc "contractId")
                       ++ "/settle")
                      VUndefined])%list).
  { rewrite <- Hsent. unfold bind at 1.
    destruct (lendingRequest rt api "POST"
                ("/api/dlc/contracts/"
                 ++ Js.to_string rt (Js.get_opt dlc "contractId") ++ "/settle")
                VUndefined c w2) as [[o3 c3] w3].
    cbn [fst snd] in S3. rewrite S2, <- app_assoc in S3. cbn [app] in S3.
    destruct o3 as [settlement | e3]; [| exact S3].
    unfold bind, member. destruct (Js.get settlement "txid"); exact S3. }
  apply app_inv_head in Hfin. subst log.
  assert (Hrq : rq = lending_fetch_request rt api "POST"
                       ("/api/dlc/contracts/"
                        ++ Js.to_string rt (Js.get_opt dlc "contractId")
                        ++ "/settle")
                       VUndefined).
  { destruct Hin as [H | [H | [H | []]]].
    - rewrite <- H in Hpost. discriminate Hpost.
    - rewrite <- H in Hpost. discriminate Hpost.
    - symmetry. exact H. }
  exists r1, t1, r2, t2, rest2, loan, dlc.
  subst w1. cbn [inbox after_fetch] in Hin2. subst rest1.
  repeat split; try assumption.
  - unfold Js.get_opt. rewrite Est. reflexivity.
  - rewrite <- Hrq. reflexivity.
Qed.

Lemma settlement_needs_repaid_loan_and_contract_witness :
  exists r1 t1 r2 t2 rest loan dlc,
    inbox (world_with [(NetReply repaid_loan_response, Num.of_Z 1001);
                       (NetReply contract_response, Num.of_Z 1002);
                       (NetReply settlement_response, Num.of_Z 1003)])
    = (NetReply r1, t1) :: (NetReply r2, t2) :: rest
    /\ ok r1 = true /\ json_body r1 = inr loan
    /\ Js.get_opt loan "status" = VStr "repaid"
    /\ ok r2 = true /\ json_body r2 = inr dlc
    /\ Js.truthy (Js.get_opt dlc "contractId") = true
    /\ [lending_fetch_request sample_runtime (lending_api None) "GET"
          "/api/loans/L1" VUndefined;
        lending_fetch_request sample_runtime (lending_api None) "GET"
          "/api/dlc/contracts/by-loan/L1" VUndefined;
        lending_fetch_request sample_runtime (lending_api None) "POST"
          "/api/dlc/contracts/dlc-1/settle" VUndefined]
       = [lending_fetch_request sample_runtime (lending_api None) "GET"
            ("/api/loans/"
             ++ Js.to_string sample_runtime (arg [("loanId", VStr "L1")] "loanId"))
            VUndefined;
          lending_fetch_request sample_runtime (lending_api None) "GET"
            ("/api/dlc/contracts/by-loan/"
             ++ Js.to_string sample_runtime (arg [("loanId", VStr "L1")] "loanId"))
            VUndefined;
          lending_fetch_request sample_runtime (lending_api None) "POST"
            "/api/dlc/contracts/dlc-1/settle" VUndefined]
    /\ lending_fetch_request sample_runtime (lending_api None) "POST"
         "/api/dlc/contracts/dlc-1/settle" VUndefined
       = lending_fetch_request sample_runtime (lending_api None) "POST"
           ("/api/dlc/contracts/"
            ++ Js.to_string sample_runtime (Js.get_opt dlc "contractId")
            ++ "/settle")
           VUndefined.
Proof.
  apply (settlement_needs_repaid_loan_and_contract sample_runtime
           (lending_api None) [("loanId", VStr "L1")] fresh_client
           (world_with [(NetReply repaid_loan_response, Num.of_Z 1001);
                        (NetReply contract_response, Num.of_Z 1002);
                        (NetReply settlement_response, Num.of_Z 1003)])).
  - reflexivity.
  - right. right. left. reflexivity.
  - reflexivity.
Defined.

(* ===================================================================== *)
(** * The amounts of the Lightning-invoice shortcut *)
(* ===================================================================== *)

Lemma appends_ret {A : Type} (a : A) : appends (ret a).
Proof. intros c w. exists []. symmetry. apply app_nil_r. Qed.

Lemma appends_member (rt : Runtime) (v : value) (k : string) :
  appends (member (rt:=rt) v k).
Proof.
  intros c w. exists []. unfold member.
  destruct (Js.get v k); symmetry; apply app_nil_r.
Qed.

Lemma appends_bind {A B : Type} (m : M A) (k : A -> M B) :
  appends m -> (forall a, appends (k a)) -> appends (bind m k).
Proof.
  intros Hm Hk c w. unfold bind.
  destruct (Hm c w) as [more Hmore].
  destruct (m c w) as [[[a | e] c1] w1]; cbn [snd] in *.
  - destruct (Hk a c1 w1) as [more' Hmore'].
    exists (more ++ more')%list. rewrite Hmore', Hmore. symmetry. apply app_assoc.
  - exists more. exact Hmore.
Qed.

Lemma appends_request (rt : Runtime) (method path : string) (body : value) :
  appends (request rt method path body).
Proof.
  intros c w.
  destruct (ensureAuthenticated rt c w) as [[[v | e] c1] w1] eqn:E.
  - destruct (request_after_auth_sends rt method path body c c1 w w1 v E)
      as (o & w2 & -> & Hs).
    cbn [snd]. rewrite Hs.
    destruct (ensureAuthenticated_sent rt c w) as [[_ H] | (_ & H & _)];
      rewrite E in H.
    + injection H as _ _ <-. eexists. reflexivity.
    + cbn [snd] in H. rewrite H, <- app_assoc. eexists. reflexivity.
  - rewrite (request_auth_failure rt method path body c c1 w w1 e E).
    cbn [snd].
    destruct (ensureAuthenticated_sent rt c w) as [[_ H] | (_ & H & _)];
      rewrite E in H.
    + discriminate H.
    + cbn [snd] in H. rewrite H. eexists. reflexivity.
Qed.

Ltac appends_tac :=
  lazymatch goal with
  | |- appends (ret _) => apply appends_ret
  | |- appends (member _ _) => apply appends_member
  | |- appends (request _ _ _ _) => apply appends_request
  | |- appends (confirmTransaction _ _) => apply appends_request
  | |- appends (bind _ _) =>
      apply appends_bind; [appends_tac | intros ?; appends_tac]
  end.


(** Once the BTC amount is fixed, the first request of the shortcut after
    the session is ensured is the creation of a transaction whose
    [destReq.amtRequested] is that amount; when the session cannot be
    ensured the shortcut fails as the sign-in did. *)
Lemma lightning_invoice_intent (rt : Runtime) (args : object)
    (c : NeutronClient) (w : world) (btcAmount : value) :
  lightning_btc_amount rt (arg args "amountSats") (arg args "amountBtc")
    = ret btcAmount ->
  match ensureAuthenticated rt c w with
  | (Ok _, c1, w1) =>
      exists more,
        sent (snd (create_lightning_invoice rt args c w))
        = (sent w1
           ++ api_request rt "POST" "/api/v2/transaction"
                (lightning_request (arg args "extRefId") btcAmount) c1
              :: more)%list
  | (Throw e, c1, w1) => create_lightning_invoice rt args c w = (Throw e, c1, w1)
  end.
Proof.
  intros Hamt. unfold create_lightning_invoice. rewrite Hamt.
  destruct (ensureAuthenticated rt c w) as [[[v | e] c1] w1] eqn:E;
    unfold bind at 1, ret at 1; cbv beta iota.
  - unfold bind at 1, createTransaction.
    destruct (request_after_auth_sends rt "POST" "/api/v2/transaction"
                (lightning_request (arg args "extRefId") btcAmount) c c1 w w1 v E)
      as (o & w2 & -> & Hs).
    destruct o as [txn | e].
    + match goal with
      | |- exists more, sent (snd (?k c1 w2)) = _ =>
          assert (Ha : appends k) by appends_tac;
          destruct (Ha c1 w2) as [more Hmore]
      end.
      exists more. rewrite Hmore, Hs, <- app_assoc. reflexivity.
    + exists []. exact Hs.
  - unfold bind at 1, createTransaction.
    rewrite (request_auth_failure rt "POST" "/api/v2/transaction" _ c c1 w w1 e E).
    reflexivity.
Qed.

(** Whatever the shortcut returns reports the BTC amount it used and the
    rounded product of that amount and 100_000_000. *)
Lemma lightning_invoice_report (rt : Runtime) (args : object)
    (c : NeutronClient) (w : world) (btcAmount : value) :
  lightning_btc_amount rt (arg args "amountSats") (arg args "amountBtc")
    = ret btcAmount ->
  match fst (fst (create_lightning_invoice rt args c w)) with
  | Ok v =>
      Js.get_opt v "amountBtc" = btcAmount
      /\ Js.get_opt v "amountSats"
         = Js.math_round rt (Js.mul rt btcAmount (VNum Num.hundred_million))
  | Throw _ => True
  end.
Proof.
  intros Hamt. unfold create_lightning_invoice. rewrite Hamt.
  unfold bind at 1, ret at 1. cbv beta iota.
  unfold bind at 1.
  destruct (createTransaction rt _ c w) as [[[txn | e] c1] w1];
    [| exact I].
  unfold bind at 1, member at 1.
  destruct (Js.get txn "txnId") as [txnId |]; [| exact I].
  unfold ret at 1. cbv beta iota.
  unfold bind at 1.
  destruct (confirmTransaction rt txnId c1 w1) as [[[confirmed | e] c2] w2];
    [| exact I].
  unfold bind at 1, member at 1.
  destruct (Js.get confirmed "sourceReq") as [sourceReq |]; [| exact I].
  unfold ret. cbv beta iota. cbn [fst]. split; reflexivity.
Qed.




(** The failure of the round trip as the tool shows it: asked for
    3355443200000019 satoshis, the shortcut reports 3355443200000020. *)
Example lightning_shortcut_reports_other_sats :
  Js.path ["amountSats"]
    (match create_lightning_invoice sample_runtime
             [("amountSats", VNum (Num.of_Z 3355443200000019))] live_client
             invoice_world
     with
     | (Ok (VObj result), _, _) => result
     | _ => []
     end)
  = Some (VNum (Num.of_Z 3355443200000020)).
Proof. vm_compute. reflexivity. Qed.

(** C10. Satoshi input takes precedence.  When [amountSats] is defined,
    the BTC amount is [amountSats / 100_000_000]: that is the
    [destReq.amtRequested] of the transaction the tool asks for and the
    [amountBtc] of any result it returns, and the whole outcome of the
    tool does not depend on [amountBtc].  [amountBtc] is the amount
    requested and reported only when [amountSats] is undefined. *)
Theorem satoshi_input_takes_precedence (rt : Runtime) (args : object)
    (c : NeutronClient) (w : world) :
  (supplied args "amountSats" ->
     lightning_btc_amount rt (arg args "amountSats") (arg args "amountBtc")
       = ret (Js.div rt (arg args "amountSats") (VNum Num.hundred_million))
     /\ match ensureAuthenticated rt c w with
        | (Ok _, c1, w1) =>
            exists more,
              sent (snd (create_lightning_invoice rt args c w))
              = (sent w1
                 ++ api_request rt "POST" "/api/v2/transaction"
                      (lightning_request (arg args "extRefId")
                         (Js.div rt (arg args "amountSats")
                            (VNum Num.hundred_million))) c1
                    :: more)%list
        | (Throw e, c1, w1) =>
            create_lightning_invoice rt args c w = (Throw e, c1, w1)
        end
     /\ match fst (fst (create_lightning_invoice rt args c w)) with
        | Ok v =>
            Js.get_opt v "amountBtc"
            = Js.div rt (arg args "amountSats") (VNum Num.hundred_million)
        | Throw _ => True
        end
     /\ forall args',
          arg args' "amountSats" = arg args "amountSats" ->
          arg args' "memo" = arg args "memo" ->
          arg args' "extRefId" = arg args "extRefId" ->
          create_lightning_invoice rt args' = create_lightning_invoice rt args)
  /\
  (~ supplied args "amountSats" -> supplied args "amountBtc" ->
     lightning_btc_amount rt (arg args "amountSats") (arg args "amountBtc")
       = ret (arg args "amountBtc")
     /\ match ensureAuthenticated rt c w with
        | (Ok _, c1, w1) =>
            exists more,
              sent (snd (create_lightning_invoice rt args c w))
              = (sent w1
                 ++ api_request rt "POST" "/api/v2/transaction"
                      (lightning_request (arg args "extRefId")
                         (arg args "amountBtc")) c1
                    :: more)%list
        | (Throw e, c1, w1) =>
            create_lightning_invoice rt args c w = (Throw e, c1, w1)
        end
     /\ match fst (fst (create_lightning_invoice rt args c w)) with
        | Ok v => Js.get_opt v "amountBtc" = arg args "amountBtc"
        | Throw _ => True
        end).
Proof.
  unfold supplied. split.
  - intros Hs.
    assert (Hamt :
      lightning_btc_amount rt (arg args "amountSats") (arg args "amountBtc")
      = ret (Js.div rt (arg args "amountSats") (VNum Num.hundred_million))).
    { unfold lightning_btc_amount. rewrite Hs. reflexivity. }
    split; [exact Hamt |].
    split; [exact (lightning_invoice_intent rt args c w _ Hamt) |].
    split.
    + pose proof (lightning_invoice_report rt args c w _ Hamt) as Hrep.
      destruct (fst (fst (create_lightning_invoice rt args c w)));
        [exact (proj1 Hrep) | exact I].
    + intros args' E1 E2 E3.
      unfold create_lightning_invoice, lightning_btc_amount.
      rewrite E1, E2, E3, Hs. reflexivity.
  - intros Hs Hb.
    assert (Hamt :
      lightning_btc_amount rt (arg args "amountSats") (arg args "amountBtc")
      = ret (arg args "amountBtc")).
    { unfold lightning_btc_amount.
      destruct (Js.defined (arg args "amountSats")); [congruence |].
      rewrite Hb. reflexivity. }
    split; [exact Hamt |].
    split; [exact (lightning_invoice_intent rt args c w _ Hamt) |].
    pose proof (lightning_invoice_report rt args c w _ Hamt) as Hrep.
    destruct (fst (fst (create_lightning_invoice rt args c w)));
      [exact (proj1 Hrep) | exact I].
Qed.

Lemma satoshi_input_precedence_witness :
  supplied [("amountSats", VNum (Num.of_Z 5000)); ("amountBtc", VNum (Num.of_Z 1))]
    "amountSats"
  /\ exists more,
       sent (snd (create_lightning_invoice sample_runtime
                    [("amountSats", VNum (Num.of_Z 5000));
                     ("amountBtc", VNum (Num.of_Z 1))]
                    live_client invoice_world))
       = api_request sample_runtime "POST" "/api/v2/transaction"
           (lightning_request VUndefined
              (VNum (Num.div (Num.of_Z 5000) Num.hundred_million)))
           live_client
         :: more.
Proof.
  split; [reflexivity |].
  exact (proj1 (proj2 (proj1 (satoshi_input_takes_precedence sample_runtime
                                [("amountSats", VNum (Num.of_Z 5000));
                                 ("amountBtc", VNum (Num.of_Z 1))]
                                live_client invoice_world)
                         eq_refl))).
Defined.
